(** * Intensity and peak-demand engine of the Grow Irish performance pages

    A shallow embedding of the numeric core of the Streamlit pages
    ([3_Players.py], [session_intensity_explorer.py]) and of the helpers
    they call, followed by the properties the design document states
    about them.

    Conventions of the embedding.
    - In the players page a Python [float] that is not NaN is a rational
      ([Q]), the exact value of the binary64 number.  Comparisons, [max]
      and [min] are exact on such numbers and [==] on floats is numeric
      equality, so [Qeq_bool] stands for [==] (two representations of one
      number compare equal, as [0.0 == -0.0] does).
    - The percentage change of the trend section decides a label, so it
      is computed as the code computes it, in binary64 ([PrimFloat]), on
      the numbers [of_Q] gives.  The coverage ratio is kept as an exact
      rational: the properties below use its bounds and its comparison
      with 100 only, which rounding to nearest does not change.
    - NaN / NaT / a missing cell is [None] inside a column.
    - A [dict] with string keys is a [gmap string value]; a key that was
      never written is absent from the map, a key written with Python's
      [None] holds [VNone].
    - Streamlit calls are recorded, in order, in a list of events.
    - The session index needs a square root; it is embedded over binary64
      numbers ([PrimFloat]) and evaluated. *)

From Stdlib Require Import QArith Qround Lqa Lia Floats.
From stdpp Require Import gmap strings list pretty sorting.

Set Warnings "-register-all,-inexact-float".

(* ====================================================================== *)
(** * Python values                                                        *)
(* ====================================================================== *)

Module Py.

(** The values stored in the dictionaries of the engine. *)
Inductive value :=
| VNone
| VBool (b : bool)
| VInt (n : Z)
| VFloat (q : Q)
| VStr (s : string)
| VDict (d : gmap string value).

#[global] Instance value_inhabited : Inhabited value := populate VNone.

(** [v is not None] *)
Definition is_not_None (v : value) : bool :=
  match v with VNone => false | _ => true end.

(** The number a numeric value denotes ([bool] is a subtype of [int]). *)
Definition as_number (v : value) : option Q :=
  match v with
  | VFloat q => Some q
  | VInt n => Some (inject_Z n)
  | VBool b => Some (if b then 1%Q else 0%Q)
  | _ => None
  end.

(** [a == b] on scalars: numbers compare by value, [None] equals only
    [None], strings compare by content.  Dictionaries are never operands
    of [==] in the embedded code. *)
Definition py_eq (a b : value) : bool :=
  match as_number a, as_number b with
  | Some x, Some y => Qeq_bool x y
  | _, _ =>
      match a, b with
      | VNone, VNone => true
      | VStr s, VStr t => String.eqb s t
      | _, _ => false
      end
  end.

(** [a < b] on numbers. *)
Definition py_lt (a b : value) : bool :=
  match as_number a, as_number b with
  | Some x, Some y => QMicromega.Qlt_bool x y
  | _, _ => false
  end.

(** [max(xs)] of a list: the first maximal item, since the running
    maximum is replaced only by a strictly greater item.  [None] stands
    for the [ValueError] of an empty argument. *)
Definition py_max (xs : list value) : option value :=
  match xs with
  | [] => None
  | x :: rest => Some (foldl (fun m y => if py_lt m y then y else m) x rest)
  end.

(** [max(a, b)] of two numbers and [min(a, b)] of two values: the first
    argument wins a tie. *)
Definition max2 (a b : Q) : Q := if QMicromega.Qlt_bool a b then b else a.
Definition py_min2 (a b : value) : value := if py_lt b a then b else a.

(** [any(...)] over a list of truth values. *)
Definition py_any (bs : list bool) : bool := existsb id bs.

(** The binary64 number a rational stands for.  A binary64 number is an
    integer over a power of two, and on those the conversion is exact;
    any other rational gets the quotient of the binary64 numbers nearest
    to its numerator and denominator. *)
Definition of_Q (q : Q) : float :=
  let d := Z.pos (Qden q) in
  let k := Z.log2 d in
  if (d =? 2 ^ k)%Z then SF2Prim (binary_normalize prec emax (Qnum q) (- k) false)
  else (SF2Prim (binary_normalize prec emax (Qnum q) 0 false)
        / SF2Prim (binary_normalize prec emax d 0 false))%float.

End Py.

(* ====================================================================== *)
(** * pandas frames and series                                             *)
(* ====================================================================== *)

Module Pd.

(** A frame as the engine reads it: its number of rows, its float64
    columns by name (a NaN cell is [None]) and, when present, its
    datetime64 ['timestamp'] column in nanoseconds (a NaT cell is
    [None]).  The dtypes are fixed by this type: the [intensity_*]
    columns are rolling means and the signals are sensor readings. *)
Record DataFrame := {
  df_len : nat;
  df_float : gmap string (list (option Q));
  df_timestamp : option (list (option Z));
}.

(** [Series.dropna()] *)
Definition dropna {A} (s : list (option A)) : list A := omap id s.

(** Greatest element of a list of defined cells. *)
Definition fold_max (xs : list Q) : option Q :=
  match xs with
  | [] => None
  | x :: rest => Some (foldl (fun m y => if QMicromega.Qlt_bool m y then y else m) x rest)
  end.

Definition fold_extreme (pick : Z -> Z -> Z) (xs : list Z) : option Z :=
  match xs with
  | [] => None
  | x :: rest => Some (foldl pick x rest)
  end.

(** [Series.max()] of a float64 column: NaN cells are skipped and the
    result is NaN ([None]) when nothing is left. *)
Definition series_max (s : list (option Q)) : option Q := fold_max (dropna s).

(** [Series.min()] / [Series.max()] of a datetime64 column (NaT skipped,
    NaT when nothing is left). *)
Definition time_min (s : list (option Z)) : option Z := fold_extreme Z.min (dropna s).
Definition time_max (s : list (option Z)) : option Z := fold_extreme Z.max (dropna s).

(** [(b - a).total_seconds()]; NaN ([None]) as soon as one side is NaT.
    The difference of two nanosecond timestamps is a [Timedelta], whose
    [total_seconds()] is made of its days, seconds and microseconds
    (pandas 2): what is below a microsecond is dropped. *)
Definition total_seconds (b a : option Z) : option Q :=
  match b, a with
  | Some tb, Some ta => Some (((tb - ta) / 1000) # 1000000)
  | _, _ => None
  end.

(** [row.get(key)] on a float-valued row of the coach-metrics frame: the
    cell, or Python's [None] when the key is missing.  Both [None] and NaN
    are "not available" to [pd.isna], and the callers look at the result
    only through [pd.isna]/[pd.notna], so the two are merged into
    [None]. *)
Definition get (row : gmap string (option Q)) (key : string) : option Q :=
  mjoin (row !! key).

Definition isna (x : option Q) : bool :=
  match x with None => true | Some _ => false end.

End Pd.

(* ====================================================================== *)
(** * Streamlit output                                                     *)
(* ====================================================================== *)

Module St.

(** An f-string kept symbolic: literal text and formatted numbers
    ([Num spec q] is [{q:spec}] for a number kept as a rational,
    [NumF spec x] for one computed in binary64). *)
Inductive frag :=
| Lit (s : string)
| Num (spec : string) (q : Q)
| NumF (spec : string) (x : float).

(** The calls of the [st] module the engine makes, in program order. *)
Inductive event :=
| spinner (text : list frag)
| markdown (text : list frag)
| caption (text : list frag)
| metric (label : list frag) (shown : list frag)
| warning (text : list frag).

(** A computation that writes to the page: its result and what it
    wrote. *)
Definition page (A : Type) : Type := A * list event.

#[global] Instance page_ret : MRet page := fun A a => (a, []).
#[global] Instance page_bind : MBind page := fun A B f m =>
  let '(a, out) := m in let '(b, out') := f a in (b, out ++ out').

Definition emit (e : event) : page unit := (tt, [e]).

Definition result {A} (m : page A) : A := fst m.
Definition written {A} (m : page A) : list event := snd m.

End St.

(* ====================================================================== *)
(** * 3_Players.py                                                         *)
(* ====================================================================== *)

Module Players.
Import Py Pd St.

(** ** compute_player_mdp_metrics *)

(** The literal [[5, 10, 20, 30]] both loops run over. *)
Definition WINDOWS : list nat := [5; 10; 20; 30]%nat.

(** [f'intensity_{window_size}s'], [f'mdp_{window_size}'] and
    [f'{window_size}s']. *)
Definition col_name (window_size : nat) : string :=
  "intensity_" +:+ pretty window_size +:+ "s".
Definition mdp_key (window_size : nat) : string := "mdp_" +:+ pretty window_size.
Definition window_label (window_size : nat) : string := pretty window_size +:+ "s".

(** The record returned for [None] or a frame without rows. *)
Definition empty_metrics : gmap string value :=
  <["mdp_5" := VNone]> (<["mdp_10" := VNone]> (<["mdp_20" := VNone]> (<["mdp_30" := VNone]> (
  <["mdp_peak_value" := VNone]> (<["mdp_peak_window" := VNone]> (
  <["data_quality" := VDict (<["coverage" := VInt 0]> (<["samples" := VInt 0]> ∅))]> (
  <["has_peak_data" := VBool false]> ∅))))))).

(** Body of the first loop: one window's maximum, if its column exists.
    [float(max_val) if pd.notna(max_val) else None] keeps a number and
    turns NaN into [None]. *)
Definition window_max (player_session_df : DataFrame)
    (metrics : gmap string value) (window_size : nat) : gmap string value :=
  match df_float player_session_df !! col_name window_size with
  | Some column =>
      match series_max column with
      | Some max_val => <[mdp_key window_size := VFloat max_val]> metrics
      | None => <[mdp_key window_size := VNone]> metrics
      end
  | None => <[mdp_key window_size := VNone]> metrics
  end.

(** The list
    [[metrics['mdp_5'], metrics['mdp_10'], metrics['mdp_20'], metrics['mdp_30']]],
    which the code writes out twice. *)
Definition mdp_values (metrics : gmap string value) : list value :=
  [metrics !!! "mdp_5"; metrics !!! "mdp_10"; metrics !!! "mdp_20"; metrics !!! "mdp_30"].

(** The second loop: the first window whose value equals the peak is
    recorded, then [break]. *)
Fixpoint record_peak_window (windows : list nat) (metrics : gmap string value)
    : gmap string value :=
  match windows with
  | [] => metrics
  | window_size :: rest =>
      if py_eq (metrics !!! mdp_key window_size) (metrics !!! "mdp_peak_value")
      then <["mdp_peak_window" := VStr (window_label window_size)]> metrics
      else record_peak_window rest metrics
  end.

(** "Find overall peak".  [if peak_values:] tests that the list is not
    empty, which is when [max] has a value. *)
Definition overall_peak (metrics : gmap string value) : gmap string value :=
  let peak_values := List.filter is_not_None (mdp_values metrics) in
  match py_max peak_values with
  | Some peak => record_peak_window WINDOWS (<["mdp_peak_value" := peak]> metrics)
  | None => <["mdp_peak_window" := VNone]> (<["mdp_peak_value" := VNone]> metrics)
  end.

(** "Data quality assessment": the coverage percentage.  The literals
    [100] and [0] are Python ints, the computed ratio is a float. *)
Definition pct_coverage (player_session_df : DataFrame) : value :=
  let samples_available := df_len player_session_df in
  match df_timestamp player_session_df with
  | Some timestamps =>
      if (1 <? samples_available)%nat then
        let session_start := time_min timestamps in
        let session_end := time_max timestamps in
        let pct :=
          match total_seconds session_end session_start with
          | Some secs =>
              if QMicromega.Qlt_bool 0%Q secs
              then VFloat (inject_Z (Z.of_nat samples_available) / max2 1%Q secs * 100)%Q
              else VInt 100
          | None => VInt 100
          end in
        py_min2 (VInt 100) pct
      else if (0 <? samples_available)%nat then VInt 100 else VInt 0
  | None => if (0 <? samples_available)%nat then VInt 100 else VInt 0
  end.

Definition data_quality (player_session_df : DataFrame) : value :=
  VDict (<["coverage" := pct_coverage player_session_df]>
        (<["samples" := VInt (Z.of_nat (df_len player_session_df))]> ∅)).

Definition compute_player_mdp_metrics (player_session_df : option DataFrame)
    : gmap string value :=
  match player_session_df with
  | None => empty_metrics
  | Some df =>
      if (df_len df =? 0)%nat then empty_metrics
      else
        let metrics := foldl (window_max df) ∅ WINDOWS in
        let metrics := overall_peak metrics in
        let metrics := <["data_quality" := data_quality df]> metrics in
        <["has_peak_data" := VBool (py_any (is_not_None <$> mdp_values metrics))]> metrics
  end.

(** ** render_early_mid_late_trend

    The three tiles are written inside [st.columns(3)]; the layout call
    itself writes nothing and is left out. *)

(** One of the three tiles: the value with one decimal, or "N/A". *)
Definition third_tile (label : string) (mp : option Q) : page unit :=
  match mp with
  | Some v => emit (metric [Lit label] [Num ".1f" v; Lit " W/kg"])
  | None => emit (metric [Lit label] [Lit "N/A"])
  end.

(** "Emoji and interpretation": the two names bound by the
    [if]/[elif]/[else] on [trend_pct], a binary64 number. *)
Definition interpretation (trend_pct : float) : string * list frag :=
  if (5 <? trend_pct)%float then
    ("📈", [Lit "Increasing (↑ "; NumF "+.1f" trend_pct; Lit "%)"])
  else if (trend_pct <? -5)%float then
    ("📉", [Lit "Decreasing (↓ "; NumF "+.1f" trend_pct; Lit "%)"])
  else
    ("➡️", [Lit "Stable (±"; NumF ".1f" (abs trend_pct); Lit "%)"]).

(** The cells are compared as they are; [trend_change] and [trend_pct]
    are computed in binary64 and the dictionary returned holds these two
    floats. *)
Definition render_early_mid_late_trend (metrics_row : option (gmap string (option Q)))
    (view_mode : string) : page (gmap string float) :=
  match metrics_row with
  | None => mret ∅
  | Some row =>
      if (size row =? 0)%nat then mret ∅
      else
        let early_mp := get row "early_mp" in
        let mid_mp := get row "mid_mp" in
        let late_mp := get row "late_mp" in
        if forallb isna [early_mp; mid_mp; late_mp] then mret ∅
        else
          emit (markdown [Lit "---"]);;
          emit (markdown [Lit "## 📈 Intensity Trend: Early / Mid / Late"]);;
          emit (caption [Lit "How intensity changed throughout the session."]);;
          third_tile "Early (1st third)" early_mp;;
          third_tile "Mid (2nd third)" mid_mp;;
          third_tile "Late (3rd third)" late_mp;;
          match early_mp, late_mp with
          | Some early, Some late =>
              if QMicromega.Qlt_bool 0%Q early then
                let trend_change := (of_Q late - of_Q early)%float in
                let trend_pct := (trend_change / of_Q early * 100)%float in
                let trend_data : gmap string float :=
                  <["trend_pct" := trend_pct]> (<["trend_change" := trend_change]> ∅) in
                let '(emoji, text) := interpretation trend_pct in
                emit (caption ([Lit emoji; Lit " **"] ++ text ++ [Lit "** from early to late"]));;
                mret trend_data
              else mret ∅
          | _, _ => mret ∅
          end
  end.

(** ** "Compute session intensity" (the block under [st.spinner]) *)

Definition required_cols : list string := ["speed"; "acc"; "hr"; "mp"].

(** [[col for col in required_cols if col in raw_df.columns]] *)
Definition available_cols (raw_df : DataFrame) : list string :=
  List.filter (fun col => bool_decide (is_Some (df_float raw_df !! col))) required_cols.

(** [calculate_intensity_and_windows] is imported from [utils]; the block
    is embedded for any function of that signature.  It returns the
    session frame and a second component the page discards. *)
Definition session_intensity {Aux : Type}
    (calculate_intensity_and_windows :
       DataFrame -> Q -> Q -> Q -> Q -> list string -> DataFrame * Aux)
    (raw_df : DataFrame) : page DataFrame :=
  emit (spinner [Lit "Computing session intensity and rolling windows..."]);;
  let available_cols := available_cols raw_df in
  if (3 <=? length available_cols)%nat then
    let '(session_data, _) :=
      calculate_intensity_and_windows raw_df (1 # 4) (1 # 4) (1 # 4) (1 # 4) available_cols in
    mret session_data
  else
    emit (warning [Lit "⚠️ Not all intensity columns available. Using raw data directly."]);;
    mret raw_df.

End Players.

(* ====================================================================== *)
(** * src/intensity_classification.py                                      *)
(* ====================================================================== *)

Module IntensityClassification.

(** Modelled from the spec: [classify_intensity_from_percentile] of
    [src/intensity_classification.py], a module the pages import but
    which is not among the sources.  The design document fixes the
    boundaries ("<25 Easy, [25,60) Medium, [60,85) Hard, >=85 Very
    Hard"); the quick-reference table of
    [PLAYER_ANALYSIS_REFACTORING_SUMMARY.py] repeats them and
    [validate_player_analysis_redesign.py] asserts four sample values. *)
Definition classify_intensity_from_percentile (percentile : Q) : string :=
  if QMicromega.Qlt_bool percentile 25%Q then "Easy"
  else if QMicromega.Qlt_bool percentile 60%Q then "Medium"
  else if QMicromega.Qlt_bool percentile 85%Q then "Hard"
  else "Very Hard".

End IntensityClassification.

(* ====================================================================== *)
(** * utils.py                                                             *)
(* ====================================================================== *)

Module Utils.
Import Pd.

(** [utils.py] is imported and called by the players page but is not
    among the sources.  Section 4.1 of the design document gives the
    contract of [calculate_intensity_and_windows]: each signal is rescaled
    to a comparable range, the composite is the weighted linear
    combination of the rescaled signals, the weights of the signals that
    remain are renormalised proportionally when a signal is missing, and a
    rolling window of [w] samples is undefined where fewer than [w]
    samples precede. *)

(** Modelled from the spec: the signal set of section 3, in the order of
    the keyword arguments; missing from the sources with [utils.py]. *)
Definition SIGNALS : list string := ["speed"; "acc"; "hr"; "mp"].

(** Modelled from the spec: the weight each keyword argument gives to
    its signal ([w_speed*norm(speed) + ...], section 4.1); missing from
    the sources with [utils.py]. *)
Definition signal_weight (w_speed w_acc w_hr w_mp : Q) (name : string) : Q :=
  if String.eqb name "speed" then w_speed
  else if String.eqb name "acc" then w_acc
  else if String.eqb name "hr" then w_hr
  else if String.eqb name "mp" then w_mp
  else 0%Q.

(** Modelled from the spec: the signals the dataset has (section 6);
    missing from the sources with [utils.py]. *)
Definition available_signals (raw_df : DataFrame) : list string :=
  List.filter (fun name => bool_decide (is_Some (df_float raw_df !! name))) SIGNALS.

(** Sum of a list of numbers. *)
Definition qsum (xs : list Q) : Q := foldr Qplus 0%Q xs.

(** Modelled from the spec: the renormalisation of section 4.1, missing
    from the sources with [utils.py].  The weights in force: every
    remaining signal keeps its share of the total weight of the remaining
    signals. *)
Definition effective_weights (raw_df : DataFrame) (w_speed w_acc w_hr w_mp : Q)
    : list (string * Q) :=
  let remaining := available_signals raw_df in
  let total := qsum (map (signal_weight w_speed w_acc w_hr w_mp) remaining) in
  map (fun name => (name, (signal_weight w_speed w_acc w_hr w_mp name / total)%Q)) remaining.

(** Least element of a list of defined cells. *)
Definition fold_min (xs : list Q) : option Q :=
  match xs with
  | [] => None
  | x :: rest => Some (foldl (fun m y => if QMicromega.Qlt_bool y m then y else m) x rest)
  end.

(** Modelled from the spec: [norm] of section 4.1, missing from the
    sources with [utils.py]; of the two variants the design document
    allows, min-max rescaling against the whole column is embedded.  A
    constant column is sent to 0. *)
Definition norm (column : list (option Q)) : list (option Q) :=
  match fold_min (dropna column), fold_max (dropna column) with
  | Some lo, Some hi =>
      map (fmap (fun x => if Qeq_bool hi lo then 0%Q else ((x - lo) / (hi - lo))%Q)) column
  | _, _ => column
  end.

(** Modelled from the spec: one term [w * norm(signal)] of one row
    (section 4.1), NaN when the cell is; missing from the sources with
    [utils.py]. *)
Definition term (raw_df : DataFrame) (i : nat) (nw : string * Q) : option Q :=
  column ← df_float raw_df !! nw.1;
  cell ← mjoin (norm column !! i);
  Some (nw.2 * cell)%Q.

(** A sum in which NaN propagates. *)
Definition nan_sum (terms : list (option Q)) : option Q :=
  foldr (fun t acc => x ← t; s ← acc; Some (x + s)%Q) (Some 0%Q) terms.

(** Modelled from the spec: [intensity_raw] of section 4.1, missing from
    the sources with [utils.py]: the linear combination, row by row. *)
Definition intensity_raw (raw_df : DataFrame) (w_speed w_acc w_hr w_mp : Q)
    : list (option Q) :=
  let weights := effective_weights raw_df w_speed w_acc w_hr w_mp in
  map (fun i => nan_sum (map (term raw_df i) weights)) (seq 0 (df_len raw_df)).

(** Modelled from the spec: the rolling window of section 4.1, missing
    from the sources with [utils.py]: the mean of the trailing [w]
    samples, undefined where the window is not full. *)
Definition rolling_mean (w : nat) (xs : list (option Q)) : list (option Q) :=
  map (fun i =>
         if (w <=? i + 1)%nat then
           total ← nan_sum (take w (drop (i + 1 - w) xs));
           Some (total / inject_Z (Z.of_nat w))%Q
         else None)
      (seq 0 (length xs)).

(** Modelled from the spec: the window lengths 5 s, 10 s, 20 s and 30 s
    of section 3, one sample per second; missing from the sources with
    [utils.py]. *)
Definition WINDOWS : list nat := [5; 10; 20; 30]%nat.

(** Modelled from the spec: [calculate_intensity_and_windows] of
    [utils.py], which is not among the sources.  The session frame is the
    raw frame with the ["intensity"] column and its four rolling windows;
    the second component, which the page discards, is taken to be the
    list of columns to plot. *)
Definition calculate_intensity_and_windows (raw_df : DataFrame)
    (w_speed w_acc w_hr w_mp : Q) (columns_to_plot : list string)
    : DataFrame * list string :=
  let intensity := intensity_raw raw_df w_speed w_acc w_hr w_mp in
  let with_windows :=
    foldl (fun columns w =>
             <["intensity_" +:+ pretty w +:+ "s" := rolling_mean w intensity]> columns)
          (<["intensity" := intensity]> (df_float raw_df)) WINDOWS in
  ({| df_len := df_len raw_df;
      df_float := with_windows;
      df_timestamp := df_timestamp raw_df |},
   columns_to_plot).

End Utils.

(* ====================================================================== *)
(** * mp_intensity_pipeline.py                                             *)
(* ====================================================================== *)

Module MpIntensityPipeline.

(** [mp_intensity_pipeline.py] is imported by the explorer and by the
    validation scripts but is not among the sources.  Section 4.3 of the
    design document gives the contract of [build_session_intensity_df]:
    the session index is the weighted sum of three sub-scores
    (explosiveness: the 10 s MDP; repeatability: the average of the 20 s
    and 30 s MDPs; volume: the sum of the power signal), each turned into
    a z-score against all sessions before weighting, a zero deviation
    giving the z-score 0.  The arithmetic is binary64. *)

(** Modelled from the spec: [IntensityWeights] of
    [mp_intensity_pipeline.py], which is not among the sources; its three
    fields are named as the callers pass them. *)
Record IntensityWeights := {
  w_explosiveness : float;
  w_repeatability : float;
  w_volume : float;
}.

(** Modelled from the spec: one row of the raw tracking data (the
    Sample of section 3, reduced to what the index reads); missing from
    the sources with [mp_intensity_pipeline.py]. *)
Record Sample := {
  player_id : string;
  date : string;
  mp : float;
}.

(** Modelled from the spec: one row of the session frame, with the
    columns the explorer reads; missing from the sources with
    [mp_intensity_pipeline.py]. *)
Record SessionRow := {
  session_player : string;
  session_date : string;
  mdp_10 : float;
  mdp_20 : float;
  mdp_30 : float;
  total_mp_load : float;
  explosiveness_z : float;
  repeatability_z : float;
  volume_z : float;
  session_intensity_index : float;
}.

(** Binary64 arithmetic on lists: conversion of a count, sum, mean. *)
Definition of_nat (n : nat) : float := PrimFloat.of_uint63 (Uint63.of_Z (Z.of_nat n)).

Definition fsum (xs : list float) : float := foldl PrimFloat.add 0%float xs.
Definition fmean (xs : list float) : float := (fsum xs / of_nat (length xs))%float.

(** Modelled from the spec: the team standard deviation of section 4.4,
    taken as the sample standard deviation; missing from the sources with
    [mp_intensity_pipeline.py]. *)
Definition fstd (xs : list float) : float :=
  let m := fmean xs in
  PrimFloat.sqrt
    (fsum (map (fun x => (x - m) * (x - m))%float xs) / of_nat (length xs - 1))%float.

(** Modelled from the spec: the z-score of sections 4.3 and 4.4, missing
    from the sources with [mp_intensity_pipeline.py]: the distance to the
    group mean in sample standard deviations (pandas' default), 0 when
    the group has no spread. *)
Definition z_score (group : list float) (x : float) : float :=
  let sd := fstd group in
  if PrimFloat.eqb sd 0%float then 0%float else ((x - fmean group) / sd)%float.

(** Modelled from the spec: the rolling means of section 4.1 at the
    positions where the window of [w] samples is full, in time order;
    missing from the sources with [mp_intensity_pipeline.py]. *)
Definition window_means (w : nat) (xs : list float) : list float :=
  map (fun i => fmean (take w (drop i xs))) (seq 0 (length xs + 1 - w)).

(** Modelled from the spec: the MDP of section 4.2, missing from the
    sources with [mp_intensity_pipeline.py]: the peak of the rolling
    mean, NaN when no window is full. *)
Definition mdp (w : nat) (xs : list float) : float :=
  match window_means w xs with
  | [] => PrimFloat.nan
  | m :: rest => foldl (fun best y => if PrimFloat.ltb best y then y else best) m rest
  end.

(** Modelled from the spec: the sessions of section 3, one per player
    and date: the (player, date) pairs of the data, each once, in order
    of first appearance; missing from the sources with
    [mp_intensity_pipeline.py]. *)
Fixpoint session_keys (raw : list Sample) (seen : list (string * string))
    : list (string * string) :=
  match raw with
  | [] => []
  | s :: rest =>
      let key := (player_id s, date s) in
      if existsb (fun k => String.eqb k.1 key.1 && String.eqb k.2 key.2) seen
      then session_keys rest seen
      else key :: session_keys rest (key :: seen)
  end.

(** Modelled from the spec: the power samples of one session, in time
    order; missing from the sources with [mp_intensity_pipeline.py]. *)
Definition session_mp (raw : list Sample) (key : string * string) : list float :=
  map mp (List.filter (fun s => String.eqb (player_id s) key.1 && String.eqb (date s) key.2) raw).

(** Modelled from the spec: [build_session_intensity_df] of
    [mp_intensity_pipeline.py], which is not among the sources; the
    columns are those the explorer reads. *)
Definition build_session_intensity_df (raw : list Sample) (weights : IntensityWeights)
    : list SessionRow :=
  let keys := session_keys raw [] in
  let explosiveness := map (fun k => mdp 10 (session_mp raw k)) keys in
  let repeatability :=
    map (fun k => (0.5 * (mdp 20 (session_mp raw k) + mdp 30 (session_mp raw k)))%float) keys in
  let volume := map (fun k => fsum (session_mp raw k)) keys in
  map (fun k =>
         let series := session_mp raw k in
         let e := z_score explosiveness (mdp 10 series) in
         let r := z_score repeatability (0.5 * (mdp 20 series + mdp 30 series))%float in
         let v := z_score volume (fsum series) in
         {| session_player := k.1;
            session_date := k.2;
            mdp_10 := mdp 10 series;
            mdp_20 := mdp 20 series;
            mdp_30 := mdp 30 series;
            total_mp_load := fsum series;
            explosiveness_z := e;
            repeatability_z := r;
            volume_z := v;
            session_intensity_index :=
              (w_explosiveness weights * e + w_repeatability weights * r
               + w_volume weights * v)%float |})
      keys.

End MpIntensityPipeline.

(* ====================================================================== *)
(** * session_intensity_explorer.py                                        *)
(* ====================================================================== *)

Module SessionIntensityExplorer.
Import MpIntensityPipeline.

(** [load_raw_data]; [None] is the [FileNotFoundError].  The
    [st.cache_data] decorator memoises a pure function and is left
    out. *)
Definition load_raw_data (disk : gmap string (list Sample)) (path : string)
    : option (list Sample) :=
  disk !! path.

(** A parameter declared with a default takes the default when the call
    does not pass it ([None] here) and the passed value otherwise. *)
Definition parameter (by_default : float) (passed : option float) : float :=
  default by_default passed.

(** [get_session_intensity_df(raw_path, w_explosiveness=0.30,
    w_repeatability=0.50, w_volume=0.20)] *)
Definition get_session_intensity_df (disk : gmap string (list Sample)) (raw_path : string)
    (w_explosiveness w_repeatability w_volume : option float)
    : option (list SessionRow) :=
  raw ← load_raw_data disk raw_path;
  let weights :=
    {| MpIntensityPipeline.w_explosiveness := parameter 0.30%float w_explosiveness;
       MpIntensityPipeline.w_repeatability := parameter 0.50%float w_repeatability;
       MpIntensityPipeline.w_volume := parameter 0.20%float w_volume |} in
  Some (build_session_intensity_df raw weights).

(** The call in [main]: [session_df = get_session_intensity_df(raw_path)]. *)
Definition main_session_df (disk : gmap string (list Sample)) (raw_path : string)
    : option (list SessionRow) :=
  get_session_intensity_df disk raw_path None None None.

(** [(a['session_intensity_index'] != b['session_intensity_index']).any()],
    the comparison of [test_weight_presets.py]. *)
Definition indices_differ (a b : list SessionRow) : bool :=
  existsb (fun ab => negb (PrimFloat.eqb (session_intensity_index ab.1)
                                         (session_intensity_index ab.2)))
          (combine a b).

End SessionIntensityExplorer.

(* ====================================================================== *)
(** * Sample data                                                          *)
(* ====================================================================== *)

Module Fixtures.
Import Py Pd MpIntensityPipeline.

(** A three-row session whose 5 s and 30 s peaks are the same number in
    two representations, whose 10 s window is never full and which has no
    20 s column. *)
Definition tied_session : DataFrame :=
  {| df_len := 3;
     df_float :=
       <["intensity_5s" := [None; Some (3 # 2); Some 2%Q]]>
         (<["intensity_10s" := [None; None; None]]>
            (<["intensity_30s" := [Some 2%Q; None; Some (4 # 2)]]> ∅));
     df_timestamp := Some [Some 0%Z; Some 1500000000%Z; None] |}.

(** Six rows of raw tracking data without the [acc] column. *)
Definition three_signals : DataFrame :=
  {| df_len := 6;
     df_float :=
       <["speed" := [Some 1%Q; Some 2%Q; Some 3%Q; Some 1%Q; Some 2%Q; Some 5%Q]]>
         (<["hr" := [Some 100%Q; Some 120%Q; Some 110%Q; Some 100%Q; Some 90%Q; Some 130%Q]]>
            (<["mp" := [Some 10%Q; Some 12%Q; Some 30%Q; Some 10%Q; Some 20%Q; Some 50%Q]]> ∅));
     df_timestamp :=
       Some [Some 0%Z; Some 1000000000%Z; Some 2000000000%Z; Some 3000000000%Z;
             Some 4000000000%Z; Some 5000000000%Z] |}.

(** Raw tracking data with two of the four signals only. *)
Definition two_signals : DataFrame :=
  {| df_len := 2;
     df_float := <["speed" := [Some 1%Q; Some 2%Q]]> (<["mp" := [Some 10%Q; Some 12%Q]]> ∅);
     df_timestamp := None |}.

(** A coach-metrics row: early third 10 W/kg, late third 11 W/kg. *)
Definition rising_row : gmap string (option Q) :=
  <["early_mp" := Some 10%Q]> (<["late_mp" := Some 11%Q]> ∅).

(** A row whose late third is the binary64 number 7.833733661755122 and
    whose early third is 7.460698725481069. *)
Definition threshold_row : gmap string (option Q) :=
  <["early_mp" := Some (8400000000000019 # 1125899906842624)]>
    (<["late_mp" := Some (2205000000000005 # 281474976710656)]> ∅).

(** Three players on one date, thirty samples each: constant power, a
    ramp from 50 W to 150 W, and a single burst at second 12. *)
Definition samples_of (player : string) (power : list float) : list Sample :=
  map (fun x => {| player_id := player; date := "2025-12-11"; mp := x |}) power.

Definition full_players_df : list Sample :=
  samples_of "A" (replicate 30 100%float)
  ++ samples_of "B" (map (fun i => (50 + of_nat i * 100 / 29)%float) (seq 0 30))
  ++ samples_of "C" (replicate 12 60%float ++ [300%float] ++ replicate 17 60%float).

Definition disk : gmap string (list Sample) := {[ "full_players_df.csv" := full_players_df ]}.

End Fixtures.

(* ====================================================================== *)
(** * Vocabulary of the proofs                                             *)
(* ====================================================================== *)

Import Py Pd St Players.

(** What the first loop stores for a column maximum. *)
Definition cell (o : option Q) : value :=
  match o with Some q => VFloat q | None => VNone end.

(** The maximum of a window's column, NaN when the column is absent. *)
Definition window_peak (df : DataFrame) (w : nat) : option Q :=
  column ← df_float df !! col_name w; series_max column.

(** The dictionary after the first loop. *)
Definition after_loop (o5 o10 o20 o30 : option Q) : gmap string value :=
  <["mdp_30" := cell o30]> (<["mdp_20" := cell o20]> (<["mdp_10" := cell o10]>
    (<["mdp_5" := cell o5]> ∅))).

(** What the two loops leave under ["mdp_peak_value"] and
    ["mdp_peak_window"], given the four window maxima. *)
Inductive peak_entries (o5 o10 o20 o30 : option Q) : value -> value -> Prop :=
| no_peak :
    o5 = None -> o10 = None -> o20 = None -> o30 = None ->
    peak_entries o5 o10 o20 o30 VNone VNone
| peak_at (p : Q) (w : nat) (pre post : list (nat * option Q)) (v : Q) :
    p ∈ dropna [o5; o10; o20; o30] ->
    (forall x, x ∈ dropna [o5; o10; o20; o30] -> (x <= p)%Q) ->
    [(5, o5); (10, o10); (20, o20); (30, o30)]%nat = pre ++ (w, Some v) :: post ->
    (v == p)%Q ->
    (forall w' v', (w', Some v') ∈ pre -> ~ (v' == p)%Q) ->
    peak_entries o5 o10 o20 o30 (VFloat p) (VStr (window_label w)).

(** "No scoring call relies on a default": a call that returns a session
    frame was given its three weights. *)
Definition weights_always_passed : Prop :=
  forall disk raw_path w_e w_r w_v rows,
    SessionIntensityExplorer.get_session_intensity_df disk raw_path w_e w_r w_v = Some rows ->
    is_Some w_e /\ is_Some w_r /\ is_Some w_v.

(* ====================================================================== *)
(** * 3_Players.py: the other sections of the page                         *)
(* ====================================================================== *)

Module PlayersSections.
Import Py Pd St Players.

(** The Streamlit calls of these sections: those of the trend section,
    [st.info], and [st.metric] with its [delta] argument, which is
    Python's [None] ([None] here), a text cell or a NaN cell passed on
    ([Some None]). *)
Inductive call :=
| plain (e : event)
| info (text : list frag)
| metric_delta (label shown : list frag) (delta : option (option string)).

(** A row of the coach-metrics frame: its numeric cells and its text
    cells; a NaN cell is [None] in both. *)
Record MetricsRow := {
  numbers : gmap string (option Q);
  texts : gmap string (option string);
}.

(** [metrics_row.empty] *)
Definition row_empty (row : MetricsRow) : bool :=
  (size (numbers row) + size (texts row) =? 0)%nat.

(** [metrics_row is None or metrics_row.empty] *)
Definition no_row (metrics_row : option MetricsRow) : bool :=
  match metrics_row with None => true | Some row => row_empty row end.

(** A tile that shows a formatted number, or "N/A" for a missing one. *)
Definition tile (label : string) (cell : option Q) (shown : Q -> list frag) : call :=
  match cell with
  | Some v => plain (metric [Lit label] (shown v))
  | None => plain (metric [Lit label] [Lit "N/A"])
  end.

(** ** render_session_snapshot

    [format_percentile] and [format_z_score] are imported from
    [intensity_utils]; the section is embedded for any two functions from
    a number to text.  In [delta=intensity_category if intensity_category
    and intensity_category != "Unknown" else None] an absent key and the
    empty text are falsy, a NaN cell is truthy and differs from
    ["Unknown"]. *)
Definition render_session_snapshot (format_percentile format_z_score : Q -> string)
    (metrics_row : option MetricsRow) (selected_player_display : string)
    (view_mode : string) : list call :=
  [plain (markdown [Lit "---"]);
   plain (markdown [Lit "## 📊 Session Snapshot"]);
   plain (caption [Lit "Performance metrics for "; Lit selected_player_display; Lit "."])]
  ++
  match metrics_row with
  | None => [info [Lit "No metrics available for selected player-session."]]
  | Some row =>
      if row_empty row || isna (get (numbers row) "intensity_score")
      then [info [Lit "No metrics available for selected player-session."]]
      else
        let intensity_percentile := get (numbers row) "intensity_percentile" in
        let intensity_category := texts row !! "intensity_category" in
        let z_intensity := get (numbers row) "z_intensity" in
        let mdp10 := get (numbers row) "mdp10" in
        let mdp20 := get (numbers row) "mdp20" in
        let mdp30 := get (numbers row) "mdp30" in
        let total_load := get (numbers row) "total_load" in
        let baseline := get (numbers row) "baseline_28d_intensity" in
        [match intensity_percentile with
         | Some p =>
             metric_delta [Lit "Intensity"] [Lit (format_percentile p)]
               match intensity_category with
               | Some (Some category) =>
                   if negb (String.eqb category "") && negb (String.eqb category "Unknown")
                   then Some (Some category) else None
               | Some None => Some None
               | None => None
               end
         | None => plain (metric [Lit "Intensity"] [Lit "N/A"])
         end;
         tile "Peak 10s (W/kg)" mdp10 (fun v => [Num ".1f" v]);
         tile "Peak 20s (W/kg)" mdp20 (fun v => [Num ".1f" v]);
         tile "Peak 30s (W/kg)" mdp30 (fun v => [Num ".1f" v]);
         tile "Total Load (AU)" total_load (fun v => [Num ".0f" v])]
        ++ match z_intensity with
           | Some z => [plain (caption [Lit "📈 Z-score: "; Lit (format_z_score z)])]
           | None => []
           end
        ++ match baseline with
           | Some b =>
               [plain (caption [Lit "📊 28-day baseline intensity percentile: **";
                                Num ".0f" b; Lit "th**"])]
           | None => []
           end
  end.

(** ** render_team_comparison *)

(** [int(x)] of a float: truncation toward zero. *)
Definition py_int (x : Q) : Z := Z.quot (Qnum x) (Z.pos (Qden x)).

(** One of the three percentile tiles together with what it stores in
    [percentiles]. *)
Definition percentile_tile (ordinal_suffix : Z -> string) (label key : string)
    (pct : option Q) (percentiles : gmap string value) : gmap string value * list call :=
  match pct with
  | Some p =>
      (<[key := VFloat p]> percentiles,
       [plain (metric [Lit label] [Lit (ordinal_suffix (py_int p))])])
  | None => (percentiles, [plain (metric [Lit label] [Lit "N/A"])])
  end.

(** [ordinal_suffix] is imported from [coach_metrics_engine]; the section
    is embedded for any function from an integer to text. *)
Definition render_team_comparison (ordinal_suffix : Z -> string)
    (metrics_row : option MetricsRow) (view_mode : string)
    : gmap string value * list call :=
  let header :=
    [plain (markdown [Lit "---"]);
     plain (markdown [Lit "## 🏆 Team Comparison"]);
     plain (caption [Lit "This player's percentile rank relative to teammates in this session."])] in
  let percentiles : gmap string value :=
    <["intensity_pct" := VNone]> (<["peak10_pct" := VNone]> (<["total_load_pct" := VNone]> ∅)) in
  match metrics_row with
  | None => (percentiles, header ++ [info [Lit "No team data available."]])
  | Some row =>
      if row_empty row then (percentiles, header ++ [info [Lit "No team data available."]])
      else
        let intensity_pct := get (numbers row) "intensity_percentile" in
        let peak10_pct := get (numbers row) "peak10_percentile" in
        let total_load_pct := get (numbers row) "total_load_percentile" in
        let '(percentiles, out1) :=
          percentile_tile ordinal_suffix "Intensity Percentile" "intensity_pct"
            intensity_pct percentiles in
        let '(percentiles, out2) :=
          percentile_tile ordinal_suffix "Peak 10s Percentile" "peak10_pct"
            peak10_pct percentiles in
        let '(percentiles, out3) :=
          percentile_tile ordinal_suffix "Total Load Percentile" "total_load_pct"
            total_load_pct percentiles in
        (percentiles, header ++ out1 ++ out2 ++ out3)
  end.

(** ** render_coach_insights

    [generate_coach_insights] is imported from [coach_metrics_engine]; the
    section is embedded for any function from a row to a list of
    sentences. *)
Definition render_coach_insights (generate_coach_insights : MetricsRow -> list string)
    (metrics_row : option MetricsRow) (selected_player_display : string)
    (view_mode : string) : list call :=
  [plain (markdown [Lit "---"]); plain (markdown [Lit "## 💡 Coach's Insights"])]
  ++
  match metrics_row with
  | None => [info [Lit "Insufficient data for insights."]]
  | Some row =>
      if row_empty row then [info [Lit "Insufficient data for insights."]]
      else
        match generate_coach_insights row with
        | [] => [plain (caption [Lit "No actionable insights available for this session."])]
        | insights => map (fun insight => info [Lit "• "; Lit insight]) insights
        end
  end.

(** ** render_mdp_summary

    [compute_mdp] and [format_mdp_display] are imported from
    [intensity_utils]; the section is embedded for any [compute_mdp] from
    a series and a window length to a peak (or [None]) and a second
    component the section discards, and any formatter. *)

(** "Data quality indicator": [len(df) / max(1, len(df))] and the colour
    chosen from it. *)
Definition data_coverage (n : nat) : Q :=
  (inject_Z (Z.of_nat n) / inject_Z (Z.of_nat (Nat.max 1 n)))%Q.

Definition coverage_color (coverage : Q) : string :=
  if Qle_bool (8 # 10) coverage then "🟢"
  else if Qle_bool (5 # 10) coverage then "🟡"
  else "🔴".

Definition render_mdp_summary {Aux : Type} (compute_mdp : list Q -> nat -> option Q * Aux)
    (format_mdp_display : Q -> string)
    (player_session_df : option DataFrame) (metrics_row : option MetricsRow)
    (view_mode : string) : list call :=
  match player_session_df with
  | None => []
  | Some df =>
      if (df_len df =? 0)%nat then []
      else
        let header :=
          [plain (markdown [Lit "---"]);
           plain (markdown [Lit "## 🔥 MDP Summary (Analyst Detail)"]);
           plain (caption [Lit "Peaks show highest rolling average metabolic power for each window."])] in
        let no_data := [info [Lit "No MP data available for MDP computation."]] in
        let tiles (mdp5 mdp10 mdp20 mdp30 : option Q) :=
          map (fun wv : nat * option Q =>
                 tile ("Peak " +:+ pretty wv.1 +:+ "s") wv.2
                      (fun v => [Lit (format_mdp_display v)]))
              [(5, mdp5); (10, mdp10); (20, mdp20); (30, mdp30)]%nat
          ++ [plain (caption [Lit (coverage_color (data_coverage (df_len df)));
                              Lit " Data: "; Num "d" (inject_Z (Z.of_nat (df_len df)));
                              Lit " samples"])] in
        match df_float df !! "mp" with
        | Some column =>
            let mp_series := dropna column in
            match mp_series with
            | [] => header ++ no_data
            | _ =>
                header ++ tiles (compute_mdp mp_series 5%nat).1 (compute_mdp mp_series 10%nat).1
                                (compute_mdp mp_series 20%nat).1 (compute_mdp mp_series 30%nat).1
            end
        | None =>
            match metrics_row with
            | Some row =>
                header ++ tiles (get (numbers row) "mdp10") (get (numbers row) "mdp10")
                                (get (numbers row) "mdp20") (get (numbers row) "mdp30")
            | None => header ++ no_data
            end
        end
  end.

(** ** "Player selector": the index handed to [st.selectbox] *)

(** [xs.index(x)]: the first position of [x], [None] for the
    [ValueError]. *)
Fixpoint py_index (xs : list string) (x : string) : option nat :=
  match xs with
  | [] => None
  | y :: rest => if String.eqb y x then Some 0%nat else S <$> py_index rest x
  end.

(** The player options after ["All Players (Average)"], the stored
    ['viz_player'] if any; the result is the index and the stored value
    after the [try]/[except]. *)
Definition current_player (others : list string) (viz_player : option string)
    : nat * string :=
  let player_options := "All Players (Average)" :: others in
  let stored := default "All Players (Average)" viz_player in
  match py_index player_options stored with
  | Some current_player_idx => (current_player_idx, stored)
  | None => (0%nat, "All Players (Average)")
  end.

(** ** "Render sections"

    The chart and the export write through plotly and the download
    button; what they write is a parameter, and so is the frame
    [df_player_session] the page has selected by then.  The trend section
    reads numeric cells only and gets those.  In Analyst mode the summary
    gets the frame, or [None] when [df_player_session.empty]. *)

(** [df.empty]: no rows (a frame of the page that has rows has its
    [player_id] column at least, so it has columns). *)
Definition frame_empty (df : DataFrame) : bool := (df_len df =? 0)%nat.

Definition render_sections {Aux : Type}
    (format_percentile format_z_score : Q -> string) (ordinal_suffix : Z -> string)
    (generate_coach_insights : MetricsRow -> list string)
    (compute_mdp : list Q -> nat -> option Q * Aux) (format_mdp_display : Q -> string)
    (intensity_chart analyst_exports : list call)
    (metrics_row : option MetricsRow) (selected_player_display : string)
    (player_view_mode : string) (df_player_session : DataFrame) : list call :=
  match metrics_row with
  | Some row =>
      if negb (isna (get (numbers row) "intensity_score")) then
        render_session_snapshot format_percentile format_z_score metrics_row
          selected_player_display player_view_mode
        ++ (render_team_comparison ordinal_suffix metrics_row player_view_mode).2
        ++ map plain (written (render_early_mid_late_trend (Some (numbers row))
                                 player_view_mode))
        ++ render_coach_insights generate_coach_insights metrics_row
             selected_player_display player_view_mode
        ++ (if String.eqb player_view_mode "Analyst" then
              intensity_chart
              ++ render_mdp_summary compute_mdp format_mdp_display
                   (if frame_empty df_player_session then None else Some df_player_session)
                   metrics_row player_view_mode
              ++ analyst_exports
            else [])
      else [info [Lit "No session data available for the selected filters. Please check your data or selection."]]
  | None =>
      [info [Lit "No session data available for the selected filters. Please check your data or selection."]]
  end
  ++ [plain (markdown [Lit "---"]);
      plain (caption [Lit "Player Analysis | Grow Irish Performance Analytics"])].

(** ** Vocabulary of the proofs about the sections *)

(** The label of a call of [st.metric]. *)
Definition metric_label (c : call) : option (list frag) :=
  match c with
  | plain (metric label _) => Some label
  | metric_delta label _ _ => Some label
  | _ => None
  end.

(** What the tiles with a given label show. *)
Definition shown_under (label : string) (out : list call) : list (list frag) :=
  omap (fun c => match c with
                 | plain (metric [Lit l] shown) =>
                     if String.eqb l label then Some shown else None
                 | _ => None
                 end) out.

(** A numeric cell of a row that may be absent altogether. *)
Definition cell_of (metrics_row : option MetricsRow) (key : string) : option Q :=
  row ← metrics_row; get (numbers row) key.

(** The three notices the sections show when they get no row. *)
Definition section_notices : list call :=
  [info [Lit "No metrics available for selected player-session."];
   info [Lit "No team data available."];
   info [Lit "Insufficient data for insights."]].

(** ** Sample rows *)

(** A row of a scored session in the top category. *)
Definition scored_row : MetricsRow :=
  {| numbers :=
       <["intensity_score" := Some (72 # 1)]> (<["intensity_percentile" := Some (175 # 2)]> (
       <["mdp10" := Some (12 # 1)]> (<["mdp20" := None]> ∅)));
     texts := <["intensity_category" := Some "Very High"]> ∅ |}.

(** A row whose score is NaN. *)
Definition unscored_row : MetricsRow :=
  {| numbers := <["intensity_score" := None]> (<["mdp10" := Some (12 # 1)]> ∅);
     texts := ∅ |}.

(** A row whose early third has no power. *)
Definition flat_start_row : gmap string (option Q) :=
  <["early_mp" := Some 0%Q]> (<["late_mp" := Some 5%Q]> ∅).

(** Three samples over three seconds and a nanosecond. *)
Definition three_second_session : DataFrame :=
  {| df_len := 3; df_float := ∅;
     df_timestamp := Some [Some 0%Z; Some 1500000000%Z; Some 3000000001%Z] |}.

(** Formatters to run the sections with. *)
Definition whole_part (x : Q) : string := pretty (py_int x).
Definition ordinal_th (n : Z) : string := pretty n +:+ "th".

End PlayersSections.

(* ====================================================================== *)
(** * session_intensity_explorer.py: filters and summaries                 *)
(* ====================================================================== *)

Module ExplorerViews.
Import Pd.

(** A row of the session frame as the explorer reads it.  As in the
    players page a number is a rational and a NaN cell is [None]; a date
    is a timestamp in nanoseconds. *)
Record SessionMetrics := {
  player_id : string;
  date : Z;
  session_id : string;
  session_intensity_index : option Q;
  mdp_10 : option Q;
  mdp_20 : option Q;
  mdp_30 : option Q;
  total_mp_load : option Q;
}.

(** [a <= b] on numbers, as a decidable relation to sort by. *)
Definition number_le (a b : Q) : Prop := Qle_bool a b = true.
#[global] Instance number_le_dec : RelDecision number_le :=
  fun a b => decide (Qle_bool a b = true).

(** [Series.quantile(0.75)]: NaN cells are skipped; the value at position
    [0.75 * (n - 1)] of the sorted cells, interpolated linearly between
    its two neighbours; NaN when nothing is left. *)
Definition quantile_75 (s : list (option Q)) : option Q :=
  let sorted := merge_sort number_le (dropna s) in
  match sorted with
  | [] => None
  | first :: _ =>
      let n := length sorted in
      let below := (3 * (n - 1) / 4)%nat in
      let fraction := (Z.of_nat (3 * (n - 1) mod 4) # 4)%Q in
      let a := nth below sorted first in
      let b := nth (Nat.min (below + 1) (n - 1)) sorted first in
      Some (a + (b - a) * fraction)%Q
  end.

(** [cell >= threshold] on floats: false as soon as one side is NaN. *)
Definition at_least (threshold cell : option Q) : bool :=
  match threshold, cell with
  | Some t, Some v => Qle_bool t v
  | _, _ => false
  end.

(** The order of [sort_values('session_intensity_index', ascending=False)]:
    greater index first, NaN last. *)
Definition index_geb (a b : SessionMetrics) : bool :=
  match session_intensity_index a, session_intensity_index b with
  | Some x, Some y => Qle_bool y x
  | Some _, None => true
  | None, Some _ => false
  | None, None => true
  end.

Definition index_ge (a b : SessionMetrics) : Prop := index_geb a b = true.
#[global] Instance index_ge_dec : RelDecision index_ge :=
  fun a b => decide (index_geb a b = true).

(** [sort_values]; pandas' default sort does not fix the order of rows
    with equal keys, the merge sort used here is one of the orders it
    allows. *)
Definition sort_by_index_desc (df : list SessionMetrics) : list SessionMetrics :=
  merge_sort index_ge df.

(** [apply_filters(df, selected_players, date_range,
    high_intensity_only=False)].  An empty list of players and an absent
    date range are falsy and leave the frame as it is. *)
Definition apply_filters (df : list SessionMetrics) (selected_players : list string)
    (date_range : option (Z * Z)) (high_intensity_only : bool) : list SessionMetrics :=
  let filtered := df in
  let filtered :=
    match selected_players with
    | [] => filtered
    | _ => List.filter (fun r => existsb (String.eqb (player_id r)) selected_players) filtered
    end in
  let filtered :=
    match date_range with
    | Some (start_date, end_date) =>
        List.filter (fun r => (start_date <=? date r)%Z && (date r <=? end_date)%Z) filtered
    | None => filtered
    end in
  let filtered :=
    if high_intensity_only && (0 <? length filtered)%nat then
      let threshold := quantile_75 (map session_intensity_index filtered) in
      List.filter (fun r => at_least threshold (session_intensity_index r)) filtered
    else filtered in
  sort_by_index_desc filtered.

(** [Series.min()], like [Series.max()]: NaN cells are skipped, the
    result is NaN when nothing is left. *)
Definition series_min (s : list (option Q)) : option Q :=
  match dropna s with
  | [] => None
  | x :: rest => Some (foldl (fun m y => if QMicromega.Qlt_bool y m then y else m) x rest)
  end.

(** The values of the summary: a count, a cell ([max()] and [min()]
    return one of the cells, or NaN) and a mean.  [Series.mean()] is
    pandas' own sum over count in binary64, whose order of summation
    this code does not fix; the summary is embedded for any [mean] from
    a column to a binary64 number. *)
Inductive stat :=
| Count (n : nat)
| Cell (c : option Q)
| Mean (x : float).

(** [compute_summary_metrics] *)
Definition compute_summary_metrics (mean : list (option Q) -> float)
    (df : list SessionMetrics) : gmap string stat :=
  if (length df =? 0)%nat then
    <["n_sessions" := Count 0]> (<["avg_intensity" := Mean 0%float]> (
    <["max_intensity" := Cell (Some 0%Q)]> (<["avg_mdp_10" := Mean 0%float]> (
    <["avg_total_load" := Mean 0%float]> ∅))))
  else
    <["n_sessions" := Count (length df)]> (
    <["avg_intensity" := Mean (mean (map session_intensity_index df))]> (
    <["max_intensity" := Cell (series_max (map session_intensity_index df))]> (
    <["min_intensity" := Cell (series_min (map session_intensity_index df))]> (
    <["avg_mdp_10" := Mean (mean (map mdp_10 df))]> (
    <["avg_total_load" := Mean (mean (map total_mp_load df))]> ∅))))).

(** A Python [str] is a sequence of characters, a [string] here is the
    sequence of the bytes of its UTF-8 text.  A byte [10xxxxxx] continues
    the character begun before it; every other byte begins one. *)
Definition continues (c : Ascii.ascii) : bool :=
  (128 <=? Ascii.nat_of_ascii c)%nat && (Ascii.nat_of_ascii c <? 192)%nat.

(** [len(s)]: the number of characters. *)
Fixpoint py_len (s : string) : nat :=
  match s with
  | EmptyString => 0%nat
  | String c rest => if continues c then py_len rest else S (py_len rest)
  end.

(** [s[:n]]: the first [n] characters, each with all its bytes. *)
Fixpoint py_take (n : nat) (s : string) : string :=
  match s with
  | EmptyString => EmptyString
  | String c rest =>
      if continues c then String c (py_take n rest)
      else match n with
           | O => EmptyString
           | S m => String c (py_take m rest)
           end
  end.

(** One bar of [plot_mdp_comparison]. *)
Record MdpBar := {
  bar_player_id : string;
  bar_session_id : string;
  bar_date : Z;
  bar_window : string;
  bar_mdp : option Q;
}.

(** "Prepare long-form data for MDP windows": the list [mdp_data] that
    [plot_mdp_comparison] builds for a frame with rows and hands to
    plotly. *)
Definition mdp_data (df : list SessionMetrics) : list MdpBar :=
  mjoin (map (fun row =>
                map (fun window_mdp : nat * option Q =>
                       {| bar_player_id := player_id row;
                          bar_session_id := py_take 15 (session_id row);
                          bar_date := date row;
                          bar_window := pretty window_mdp.1 +:+ "s";
                          bar_mdp := window_mdp.2 |})
                    [(10, mdp_10 row); (20, mdp_20 row); (30, mdp_30 row)]%nat)
             df).

(** ** Vocabulary of the proofs about the filters *)

(** The frame [apply_filters] holds after the player and date filters,
    before the top-quarter filter and the sort. *)
Definition selected_sessions (df : list SessionMetrics) (selected_players : list string)
    (date_range : option (Z * Z)) : list SessionMetrics :=
  let filtered :=
    match selected_players with
    | [] => df
    | _ => List.filter (fun r => existsb (String.eqb (player_id r)) selected_players) df
    end in
  match date_range with
  | Some (start_date, end_date) =>
      List.filter (fun r => (start_date <=? date r)%Z && (date r <=? end_date)%Z) filtered
  | None => filtered
  end.

(** ** Sample sessions *)

(** Six sessions of six players, one of them without an index. *)
Definition sample_session (player : string) (day : Z) (index : option Q) : SessionMetrics :=
  {| player_id := player; date := day;
     session_id := "session_" +:+ player +:+ "_2025-12-11";
     session_intensity_index := index;
     mdp_10 := Some 1%Q; mdp_20 := None; mdp_30 := Some 3%Q;
     total_mp_load := Some 10%Q |}.

(** A session whose id has a character of two bytes among its first
    fifteen. *)
Definition accented_session : SessionMetrics :=
  {| player_id := "7"; date := 7;
     session_id := "sessão_jogador_7_2025-12-11";
     session_intensity_index := Some 1%Q;
     mdp_10 := Some 1%Q; mdp_20 := Some 2%Q; mdp_30 := None;
     total_mp_load := None |}.

Definition sample_sessions : list SessionMetrics :=
  [sample_session "a" 1 (Some (1 # 2)); sample_session "b" 2 None;
   sample_session "c" 3 (Some 2%Q); sample_session "d" 4 (Some (-1)%Q);
   sample_session "e" 5 (Some 1%Q); sample_session "f" 6 (Some (3 # 2))].

End ExplorerViews.

(* ====================================================================== *)
(** * Maxima                                                               *)
(* ====================================================================== *)

Section Maxima.

Lemma Qlt_bool_false (a b : Q) : QMicromega.Qlt_bool a b = false -> (b <= a)%Q.
Proof.
  intros H. apply Qnot_lt_le. intros Hlt.
  apply QMicromega.Qlt_bool_iff in Hlt. congruence.
Qed.

Local Abbreviation step := (fun m y : Q => if QMicromega.Qlt_bool m y then y else m).

Lemma running_max_spec (xs : list Q) (m : Q) :
  (m <= foldl step m xs)%Q
  /\ (forall x, x ∈ xs -> (x <= foldl step m xs)%Q)
  /\ (foldl step m xs = m \/ foldl step m xs ∈ xs).
Proof.
  revert m. induction xs as [|y ys IH]; intros m; simpl.
  - split; [apply Qle_refl|]. split; [intros x Hx; inversion Hx | now left].
  - destruct (IH (step m y)) as (Hge & Hall & Hmem).
    assert (Hm : (m <= step m y)%Q /\ (y <= step m y)%Q).
    { simpl. destruct (QMicromega.Qlt_bool m y) eqn:E.
      - apply QMicromega.Qlt_bool_iff in E. split; [now apply Qlt_le_weak | apply Qle_refl].
      - apply Qlt_bool_false in E. split; [apply Qle_refl | exact E]. }
    destruct Hm as [Hm Hy]. split; [eapply Qle_trans; eauto|]. split.
    + intros x Hx. apply elem_of_cons in Hx as [->|Hx]; [eapply Qle_trans; eauto | auto].
    + destruct Hmem as [Heq|Hin].
      * rewrite Heq. destruct (QMicromega.Qlt_bool m y); [right; left | now left].
      * right. now right.
Qed.

Lemma fold_max_None (xs : list Q) : fold_max xs = None <-> xs = [].
Proof. destruct xs; simpl; split; congruence. Qed.

Lemma fold_max_Some (xs : list Q) (v : Q) :
  fold_max xs = Some v -> v ∈ xs /\ forall x, x ∈ xs -> (x <= v)%Q.
Proof.
  destruct xs as [|x0 rest]; simpl; [congruence|]. intros [= <-].
  destruct (running_max_spec rest x0) as (Hge & Hall & Hmem). split.
  - destruct Hmem as [->|Hin]; [left | now right].
  - intros x Hx. apply elem_of_cons in Hx as [->|Hx]; auto.
Qed.

Lemma elem_of_dropna {A} (x : A) (s : list (option A)) : x ∈ dropna s <-> Some x ∈ s.
Proof.
  unfold dropna. rewrite list_elem_of_omap. split.
  - intros (o & Ho & Hid). simpl in Hid. now subst o.
  - intros H. now exists (Some x).
Qed.

Lemma dropna_nil {A} (s : list (option A)) : dropna s = [] <-> forall c, c ∈ s -> c = None.
Proof.
  split.
  - intros Hnil [x|] Hc; [|reflexivity].
    apply elem_of_dropna in Hc. rewrite Hnil in Hc. inversion Hc.
  - intros Hall. destruct (dropna s) as [|x xs] eqn:E; [reflexivity|].
    assert (Hx : x ∈ dropna s) by (rewrite E; left).
    apply elem_of_dropna, Hall in Hx. discriminate.
Qed.

(** Python's [max] over the floats of the metrics agrees with the maximum
    of the numbers. *)
Lemma py_running_max (ys : list Q) (m : Q) :
  foldl (fun m y => if py_lt m y then y else m) (VFloat m) (VFloat <$> ys)
  = VFloat (foldl step m ys).
Proof.
  revert m. induction ys as [|y ys IH]; intros m; simpl; [reflexivity|].
  unfold py_lt at 2. simpl. destruct (QMicromega.Qlt_bool m y); apply IH.
Qed.

Lemma py_max_floats (qs : list Q) : py_max (VFloat <$> qs) = VFloat <$> fold_max qs.
Proof. destruct qs as [|q qs]; simpl; [reflexivity|]. now rewrite py_running_max. Qed.

End Maxima.

(* ====================================================================== *)
(** * The record built by compute_player_mdp_metrics                       *)
(* ====================================================================== *)

Section PeakMetrics.

Lemma cell_float (o : option Q) (v : Q) : cell o = VFloat v <-> o = Some v.
Proof. destruct o; simpl; split; congruence. Qed.

Lemma filter_not_None_cells (os : list (option Q)) :
  List.filter is_not_None (cell <$> os) = VFloat <$> dropna os.
Proof.
  unfold dropna. induction os as [|[q|] os IH]; simpl; [reflexivity| |exact IH].
  f_equal. exact IH.
Qed.

Lemma py_eq_cell (o : option Q) (p : Q) :
  py_eq (cell o) (VFloat p) = true <-> exists v, o = Some v /\ (v == p)%Q.
Proof.
  destruct o as [q|]; simpl.
  - unfold py_eq. simpl. rewrite Qeq_bool_iff. split.
    + intros H. now exists q.
    + now intros (v & [= ->] & H).
  - split; [discriminate | now intros (v & [=] & _)].
Qed.

Lemma window_max_insert df m w :
  window_max df m w = <[mdp_key w := cell (window_peak df w)]> m.
Proof.
  unfold window_max, window_peak.
  destruct (df_float df !! col_name w) as [column|]; simpl; [|reflexivity].
  now destruct (series_max column).
Qed.

Lemma windows_loop df :
  foldl (window_max df) ∅ WINDOWS
  = after_loop (window_peak df 5) (window_peak df 10) (window_peak df 20) (window_peak df 30).
Proof. unfold WINDOWS. simpl. now rewrite !window_max_insert. Qed.

Lemma overall_peak_after_loop o5 o10 o20 o30 :
  overall_peak (after_loop o5 o10 o20 o30)
  = match fold_max (dropna [o5; o10; o20; o30]) with
    | Some p => record_peak_window WINDOWS
                  (<["mdp_peak_value" := VFloat p]> (after_loop o5 o10 o20 o30))
    | None => <["mdp_peak_window" := VNone]>
                (<["mdp_peak_value" := VNone]> (after_loop o5 o10 o20 o30))
    end.
Proof.
  unfold overall_peak.
  change (mdp_values (after_loop o5 o10 o20 o30)) with (cell <$> [o5; o10; o20; o30]).
  rewrite filter_not_None_cells, py_max_floats.
  now destruct (fold_max (dropna [o5; o10; o20; o30])).
Qed.

Local Ltac miss :=
  match goal with
  | Hm : forall o v', py_eq (cell o) _ = false -> _,
    H : py_eq (cell (Some ?x)) _ = false |- ~ (?x == _)%Q => exact (Hm _ _ H eq_refl)
  end.

Lemma overall_peak_entries o5 o10 o20 o30 :
  exists pv pw,
    overall_peak (after_loop o5 o10 o20 o30)
    = <["mdp_peak_window" := pw]> (<["mdp_peak_value" := pv]> (after_loop o5 o10 o20 o30))
    /\ peak_entries o5 o10 o20 o30 pv pw.
Proof.
  rewrite overall_peak_after_loop.
  destruct (fold_max (dropna [o5; o10; o20; o30])) as [p|] eqn:Hmax.
  - apply fold_max_Some in Hmax as [Hin Hle].
    assert (Hhit : forall o, Some p = o -> py_eq (cell o) (VFloat p) = true).
    { intros o <-. apply py_eq_cell. exists p. split; [reflexivity | apply Qeq_refl]. }
    assert (Hmiss : forall o v',
               py_eq (cell o) (VFloat p) = false -> o = Some v' -> ~ (v' == p)%Q).
    { intros o v' Hf -> Heq. assert (py_eq (cell (Some v')) (VFloat p) = true) as Ht
        by (apply py_eq_cell; eauto). congruence. }
    exists (VFloat p).
    change (record_peak_window WINDOWS
              (<["mdp_peak_value" := VFloat p]> (after_loop o5 o10 o20 o30)))
      with (let m1 := <["mdp_peak_value" := VFloat p]> (after_loop o5 o10 o20 o30) in
            if py_eq (cell o5) (VFloat p) then <["mdp_peak_window" := VStr "5s"]> m1
            else if py_eq (cell o10) (VFloat p) then <["mdp_peak_window" := VStr "10s"]> m1
            else if py_eq (cell o20) (VFloat p) then <["mdp_peak_window" := VStr "20s"]> m1
            else if py_eq (cell o30) (VFloat p) then <["mdp_peak_window" := VStr "30s"]> m1
            else m1).
    simpl.
    destruct (py_eq (cell o5) (VFloat p)) eqn:E5.
    { apply py_eq_cell in E5 as (v & -> & Hv). exists (VStr (window_label 5)).
      split; [reflexivity|]. eapply (peak_at _ _ _ _ p 5%nat [] _ v); eauto.
      intros w' v' Hin'. inversion Hin'. }
    destruct (py_eq (cell o10) (VFloat p)) eqn:E10.
    { apply py_eq_cell in E10 as (v & -> & Hv). exists (VStr (window_label 10)).
      split; [reflexivity|]. eapply (peak_at _ _ _ _ p 10%nat [(5%nat, o5)] _ v); eauto.
      intros w' v' Hin'. apply list_elem_of_singleton in Hin' as [= ? ?]; subst; miss. }
    destruct (py_eq (cell o20) (VFloat p)) eqn:E20.
    { apply py_eq_cell in E20 as (v & -> & Hv). exists (VStr (window_label 20)).
      split; [reflexivity|].
      eapply (peak_at _ _ _ _ p 20%nat [(5%nat, o5); (10%nat, o10)] _ v); eauto.
      intros w' v' Hin'. rewrite !elem_of_cons, elem_of_nil in Hin'.
      destruct Hin' as [[= ? ?]|[[= ? ?]|[]]]; subst; miss. }
    destruct (py_eq (cell o30) (VFloat p)) eqn:E30.
    { apply py_eq_cell in E30 as (v & -> & Hv). exists (VStr (window_label 30)).
      split; [reflexivity|].
      eapply (peak_at _ _ _ _ p 30%nat [(5%nat, o5); (10%nat, o10); (20%nat, o20)] [] v); eauto.
      intros w' v' Hin'. rewrite !elem_of_cons, elem_of_nil in Hin'.
      destruct Hin' as [[= ? ?]|[[= ? ?]|[[= ? ?]|[]]]]; subst; miss. }
    exfalso. apply elem_of_dropna in Hin. rewrite !elem_of_cons, elem_of_nil in Hin.
    destruct Hin as [Ho|[Ho|[Ho|[Ho|[]]]]]; apply Hhit in Ho; congruence.
  - apply fold_max_None in Hmax. exists VNone, VNone. split; [reflexivity|].
    destruct o5, o10, o20, o30; try discriminate Hmax. now constructor.
Qed.

Lemma window_cases (w : nat) :
  w ∈ WINDOWS -> w = 5%nat \/ w = 10%nat \/ w = 20%nat \/ w = 30%nat.
Proof. unfold WINDOWS. rewrite !elem_of_cons, elem_of_nil. tauto. Qed.

Lemma window_5 : 5%nat ∈ WINDOWS.
Proof. unfold WINDOWS. rewrite !elem_of_cons. tauto. Qed.
Lemma window_10 : 10%nat ∈ WINDOWS.
Proof. unfold WINDOWS. rewrite !elem_of_cons. tauto. Qed.
Lemma window_20 : 20%nat ∈ WINDOWS.
Proof. unfold WINDOWS. rewrite !elem_of_cons. tauto. Qed.
Lemma window_30 : 30%nat ∈ WINDOWS.
Proof. unfold WINDOWS. rewrite !elem_of_cons. tauto. Qed.

(** The record of a session that has rows, key by key. *)
Lemma compute_nonempty (df : DataFrame) :
  df_len df ≠ 0%nat ->
  let o5 := window_peak df 5 in let o10 := window_peak df 10 in
  let o20 := window_peak df 20 in let o30 := window_peak df 30 in
  exists pv pw,
    compute_player_mdp_metrics (Some df)
    = <["has_peak_data" := VBool (py_any (is_not_None <$> (cell <$> [o5; o10; o20; o30])))]>
        (<["data_quality" := data_quality df]>
           (<["mdp_peak_window" := pw]> (<["mdp_peak_value" := pv]> (after_loop o5 o10 o20 o30))))
    /\ peak_entries o5 o10 o20 o30 pv pw.
Proof.
  intros Hlen o5 o10 o20 o30. unfold compute_player_mdp_metrics.
  apply Nat.eqb_neq in Hlen. rewrite Hlen, windows_loop.
  destruct (overall_peak_entries o5 o10 o20 o30) as (pv & pw & Heq & Hent).
  exists pv, pw. split; [|exact Hent].
  fold o5 o10 o20 o30. rewrite Heq. reflexivity.
Qed.

Lemma compute_empty (player_session_df : option DataFrame) :
  (player_session_df = None
   \/ exists df, player_session_df = Some df /\ df_len df = 0%nat) ->
  compute_player_mdp_metrics player_session_df = empty_metrics.
Proof.
  intros [->|(df & -> & Hlen)]; [reflexivity|].
  unfold compute_player_mdp_metrics. now rewrite Hlen.
Qed.

Lemma mdp_lookup (df : DataFrame) (w : nat) :
  df_len df ≠ 0%nat -> w ∈ WINDOWS ->
  compute_player_mdp_metrics (Some df) !! mdp_key w = Some (cell (window_peak df w)).
Proof.
  intros Hlen Hw. destruct (compute_nonempty df Hlen) as (pv & pw & -> & _).
  apply window_cases in Hw as [->|[->|[->| ->]]]; reflexivity.
Qed.

Lemma peak_lookup (df : DataFrame) :
  df_len df ≠ 0%nat ->
  exists pv pw,
    compute_player_mdp_metrics (Some df) !! "mdp_peak_value" = Some pv
    /\ compute_player_mdp_metrics (Some df) !! "mdp_peak_window" = Some pw
    /\ compute_player_mdp_metrics (Some df) !! "has_peak_data"
       = Some (VBool (py_any (is_not_None <$> (cell <$>
           [window_peak df 5; window_peak df 10; window_peak df 20; window_peak df 30]))))
    /\ peak_entries (window_peak df 5) (window_peak df 10) (window_peak df 20)
         (window_peak df 30) pv pw.
Proof.
  intros Hlen. destruct (compute_nonempty df Hlen) as (pv & pw & -> & Hent).
  exists pv, pw. repeat split; [reflexivity..|exact Hent].
Qed.

(** [has_peak_data] is true exactly when a window has a maximum. *)
Lemma any_window_peak (df : DataFrame) :
  py_any (is_not_None <$> (cell <$>
     [window_peak df 5; window_peak df 10; window_peak df 20; window_peak df 30])) = true
  <-> exists w q, w ∈ WINDOWS /\ window_peak df w = Some q.
Proof.
  unfold py_any. cbn [fmap list_fmap existsb]. split.
  - intros Hb.
    destruct (window_peak df 5) as [q|] eqn:E5; [exists 5%nat, q; auto using window_5|].
    destruct (window_peak df 10) as [q|] eqn:E10; [exists 10%nat, q; auto using window_10|].
    destruct (window_peak df 20) as [q|] eqn:E20; [exists 20%nat, q; auto using window_20|].
    destruct (window_peak df 30) as [q|] eqn:E30; [exists 30%nat, q; auto using window_30|].
    discriminate Hb.
  - intros (w & q & Hw & Hq).
    apply window_cases in Hw as [->|[->|[->| ->]]]; rewrite Hq; cbn [cell is_not_None id];
      rewrite ?orb_true_r; reflexivity.
Qed.

End PeakMetrics.

(* ====================================================================== *)
(** * Properties of compute_player_mdp_metrics                             *)
(* ====================================================================== *)

Section PlayerMetrics.

(** The record of the sample session: the 10 s and 20 s peaks are [None],
    the 5 s and 30 s peaks tie, and the 5 s window is reported. *)
Example tied_session_record :
  compute_player_mdp_metrics (Some Fixtures.tied_session) !! "mdp_5" = Some (VFloat 2)
  /\ compute_player_mdp_metrics (Some Fixtures.tied_session) !! "mdp_10" = Some VNone
  /\ compute_player_mdp_metrics (Some Fixtures.tied_session) !! "mdp_20" = Some VNone
  /\ compute_player_mdp_metrics (Some Fixtures.tied_session) !! "mdp_30" = Some (VFloat 2)
  /\ compute_player_mdp_metrics (Some Fixtures.tied_session) !! "mdp_peak_value"
     = Some (VFloat 2)
  /\ compute_player_mdp_metrics (Some Fixtures.tied_session) !! "mdp_peak_window"
     = Some (VStr "5s")
  /\ compute_player_mdp_metrics (Some Fixtures.tied_session) !! "has_peak_data"
     = Some (VBool true).
Proof. vm_compute. repeat split. Qed.

(** C1. For a session with rows in which at least one window has a peak,
    ["mdp_peak_value"] holds a number [p] that is one of the per-window
    values and is not below any of them, ["mdp_peak_window"] names a
    window [w] whose value equals [p], and every window whose value
    equals [p] is at least as long as [w]: on a tie the shorter window is
    reported. *)
Theorem overall_peak_is_max_of_windows (df : DataFrame) :
  df_len df ≠ 0%nat ->
  (exists w v, w ∈ WINDOWS
               /\ compute_player_mdp_metrics (Some df) !! mdp_key w = Some (VFloat v)) ->
  exists p w,
    compute_player_mdp_metrics (Some df) !! "mdp_peak_value" = Some (VFloat p)
    /\ compute_player_mdp_metrics (Some df) !! "mdp_peak_window" = Some (VStr (window_label w))
    /\ w ∈ WINDOWS
    /\ (exists w1, w1 ∈ WINDOWS
                   /\ compute_player_mdp_metrics (Some df) !! mdp_key w1 = Some (VFloat p))
    /\ (exists v, compute_player_mdp_metrics (Some df) !! mdp_key w = Some (VFloat v)
                  /\ (v == p)%Q)
    /\ (forall w' v', w' ∈ WINDOWS ->
          compute_player_mdp_metrics (Some df) !! mdp_key w' = Some (VFloat v') ->
          (v' <= p)%Q /\ ((v' == p)%Q -> (w <= w')%nat)).
Proof.
  intros Hlen (w0 & v0 & Hw0 & Hv0).
  destruct (peak_lookup df Hlen) as (pv & pw & Hpv & Hpw & _ & Hent).
  rewrite Hpv, Hpw.
  assert (Hkey : forall w' v', w' ∈ WINDOWS ->
            compute_player_mdp_metrics (Some df) !! mdp_key w' = Some (VFloat v') <->
            window_peak df w' = Some v').
  { intros w' v' Hw'. rewrite (mdp_lookup df w' Hlen Hw'). rewrite <- cell_float.
    split; congruence. }
  destruct Hent as [H5 H10 H20 H30 | p w pre post v Hin Hle Hsplit Hv Hpre].
  { apply Hkey in Hv0; [|exact Hw0].
    apply window_cases in Hw0 as [->|[->|[->| ->]]]; congruence. }
  assert (Hw : w ∈ WINDOWS /\ window_peak df w = Some v).
  { assert (Hmem : (w, Some v) ∈ [(5%nat, window_peak df 5); (10%nat, window_peak df 10);
                                   (20%nat, window_peak df 20); (30%nat, window_peak df 30)]).
    { rewrite Hsplit. apply elem_of_app. right. left. }
    rewrite !elem_of_cons, elem_of_nil in Hmem. unfold WINDOWS.
    destruct Hmem as [[= -> Hc]|[[= -> Hc]|[[= -> Hc]|[[= -> Hc]|[]]]]];
      (split; [rewrite !elem_of_cons; tauto | now symmetry]). }
  destruct Hw as [Hw Hwv].
  exists p, w. split; [reflexivity|]. split; [reflexivity|]. split; [exact Hw|].
  split; [|split].
  - apply elem_of_dropna in Hin. rewrite !elem_of_cons, elem_of_nil in Hin.
    destruct Hin as [Hp|[Hp|[Hp|[Hp|[]]]]];
      [exists 5%nat | exists 10%nat | exists 20%nat | exists 30%nat];
      (split; [auto using window_5, window_10, window_20, window_30 |]);
      apply Hkey; auto using window_5, window_10, window_20, window_30.
  - exists v. split; [now apply Hkey | exact Hv].
  - intros w' v' Hw' Hv'. apply Hkey in Hv'; [|exact Hw']. split.
    + apply Hle, elem_of_dropna.
      apply window_cases in Hw' as [->|[->|[->| ->]]]; rewrite <- Hv', !elem_of_cons; tauto.
    + intros Heq. destruct (le_lt_dec w w') as [Hok|Hlt]; [exact Hok|exfalso].
      apply (Hpre w' v'); [|exact Heq].
      (* a window shorter than the recorded one comes before it in the loop *)
      clear - Hsplit Hw' Hv' Hlt Hw.
      apply window_cases in Hw'. apply window_cases in Hw.
      destruct pre as [|a [|b [|c [|d pre]]]]; simplify_eq/=;
        try (destruct pre; discriminate);
        rewrite <- ?Hv', ?elem_of_cons; intuition (try lia; subst; try lia; auto).
Qed.

(** C1 on the sample session, whose 5 s and 30 s peaks tie. *)
Lemma overall_peak_is_max_of_windows_witness :
  exists p w,
    compute_player_mdp_metrics (Some Fixtures.tied_session) !! "mdp_peak_value"
    = Some (VFloat p)
    /\ compute_player_mdp_metrics (Some Fixtures.tied_session) !! "mdp_peak_window"
       = Some (VStr (window_label w))
    /\ w ∈ WINDOWS
    /\ (exists w1, w1 ∈ WINDOWS
          /\ compute_player_mdp_metrics (Some Fixtures.tied_session) !! mdp_key w1
             = Some (VFloat p))
    /\ (exists v, compute_player_mdp_metrics (Some Fixtures.tied_session) !! mdp_key w
                  = Some (VFloat v)
                  /\ (v == p)%Q)
    /\ (forall w' v', w' ∈ WINDOWS ->
          compute_player_mdp_metrics (Some Fixtures.tied_session) !! mdp_key w'
          = Some (VFloat v') ->
          (v' <= p)%Q /\ ((v' == p)%Q -> (w <= w')%nat)).
Proof.
  apply (overall_peak_is_max_of_windows Fixtures.tied_session).
  - simpl. lia.
  - exists 5%nat, 2%Q. split; [apply window_5 | vm_compute; reflexivity].
Defined.

(** C3. For [None] and for a frame without rows the function returns a
    record (it is total: nothing is raised) in which the six peak fields
    are present and hold [None] and ["has_peak_data"] is [False]. *)
Theorem empty_session_gives_null_record (player_session_df : option DataFrame) :
  (player_session_df = None
   \/ exists df, player_session_df = Some df /\ df_len df = 0%nat) ->
  compute_player_mdp_metrics player_session_df !! "mdp_5" = Some VNone
  /\ compute_player_mdp_metrics player_session_df !! "mdp_10" = Some VNone
  /\ compute_player_mdp_metrics player_session_df !! "mdp_20" = Some VNone
  /\ compute_player_mdp_metrics player_session_df !! "mdp_30" = Some VNone
  /\ compute_player_mdp_metrics player_session_df !! "mdp_peak_value" = Some VNone
  /\ compute_player_mdp_metrics player_session_df !! "mdp_peak_window" = Some VNone
  /\ compute_player_mdp_metrics player_session_df !! "has_peak_data" = Some (VBool false).
Proof.
  intros Hempty. rewrite (compute_empty _ Hempty). repeat split.
Qed.

(** C3 on a frame whose rows were all filtered out. *)
Lemma empty_session_gives_null_record_witness :
  let filtered := {| df_len := 0;
                     df_float := <["intensity_5s" := []]> ∅;
                     df_timestamp := Some [] |} in
  compute_player_mdp_metrics (Some filtered) !! "mdp_5" = Some VNone
  /\ compute_player_mdp_metrics (Some filtered) !! "mdp_10" = Some VNone
  /\ compute_player_mdp_metrics (Some filtered) !! "mdp_20" = Some VNone
  /\ compute_player_mdp_metrics (Some filtered) !! "mdp_30" = Some VNone
  /\ compute_player_mdp_metrics (Some filtered) !! "mdp_peak_value" = Some VNone
  /\ compute_player_mdp_metrics (Some filtered) !! "mdp_peak_window" = Some VNone
  /\ compute_player_mdp_metrics (Some filtered) !! "has_peak_data" = Some (VBool false).
Proof.
  intros filtered. apply (empty_session_gives_null_record (Some filtered)).
  right. exists filtered. split; reflexivity.
Defined.

(** C4. For a session with rows and each window length of the loop: the
    entry is [None] when the window's column is absent and when all its
    cells are missing; otherwise it is the greatest of the defined cells,
    the missing ones being ignored.  This holds for each window whatever
    the other columns are, so a [None] for one window leaves the others
    computed. *)
Theorem window_mdp_ignores_missing_cells (df : DataFrame) (w : nat) :
  df_len df ≠ 0%nat -> w ∈ WINDOWS ->
  (df_float df !! col_name w = None ->
   compute_player_mdp_metrics (Some df) !! mdp_key w = Some VNone)
  /\ (forall column, df_float df !! col_name w = Some column ->
      (forall c, c ∈ column -> c = None) ->
      compute_player_mdp_metrics (Some df) !! mdp_key w = Some VNone)
  /\ (forall column x, df_float df !! col_name w = Some column ->
      Some x ∈ column ->
      exists v, compute_player_mdp_metrics (Some df) !! mdp_key w = Some (VFloat v)
                /\ Some v ∈ column
                /\ forall y, Some y ∈ column -> (y <= v)%Q).
Proof.
  intros Hlen Hw. rewrite (mdp_lookup df w Hlen Hw). unfold window_peak.
  split; [|split].
  - intros ->. reflexivity.
  - intros column -> Hall. simpl. unfold series_max.
    apply dropna_nil in Hall. rewrite Hall. reflexivity.
  - intros column x -> Hx. simpl. unfold series_max.
    destruct (fold_max (dropna column)) as [v|] eqn:Hmax.
    + apply fold_max_Some in Hmax as [Hin Hle]. exists v. split; [reflexivity|].
      split; [now apply elem_of_dropna|].
      intros y Hy. apply Hle. now apply elem_of_dropna.
    + apply fold_max_None in Hmax. apply elem_of_dropna in Hx.
      rewrite Hmax in Hx. inversion Hx.
Qed.

(** C4 on the sample session and its 30 s window. *)
Lemma window_mdp_ignores_missing_cells_witness :
  (df_float Fixtures.tied_session !! col_name 30 = None ->
   compute_player_mdp_metrics (Some Fixtures.tied_session) !! mdp_key 30 = Some VNone)
  /\ (forall column, df_float Fixtures.tied_session !! col_name 30 = Some column ->
      (forall c, c ∈ column -> c = None) ->
      compute_player_mdp_metrics (Some Fixtures.tied_session) !! mdp_key 30 = Some VNone)
  /\ (forall column x, df_float Fixtures.tied_session !! col_name 30 = Some column ->
      Some x ∈ column ->
      exists v, compute_player_mdp_metrics (Some Fixtures.tied_session) !! mdp_key 30
                = Some (VFloat v)
                /\ Some v ∈ column
                /\ forall y, Some y ∈ column -> (y <= v)%Q).
Proof.
  apply (window_mdp_ignores_missing_cells Fixtures.tied_session 30).
  - simpl. lia.
  - apply window_30.
Defined.

(** C9. In every record the function returns, ["has_peak_data"] is
    [True] exactly when one of the four window entries is not [None], and
    ["mdp_peak_value"] and ["mdp_peak_window"] are both not [None] when
    it is [True] and both [None] when it is [False]. *)
Theorem has_peak_data_tracks_window_peaks (player_session_df : option DataFrame) :
  exists b pv pw,
    compute_player_mdp_metrics player_session_df !! "has_peak_data" = Some (VBool b)
    /\ compute_player_mdp_metrics player_session_df !! "mdp_peak_value" = Some pv
    /\ compute_player_mdp_metrics player_session_df !! "mdp_peak_window" = Some pw
    /\ (b = true <->
        exists w v, w ∈ WINDOWS
                    /\ compute_player_mdp_metrics player_session_df !! mdp_key w = Some v
                    /\ v ≠ VNone)
    /\ is_not_None pv = b
    /\ is_not_None pw = b.
Proof.
  assert (Hnull : (player_session_df = None
                   \/ exists df, player_session_df = Some df /\ df_len df = 0%nat)
                  \/ exists df, player_session_df = Some df /\ df_len df ≠ 0%nat).
  { destruct player_session_df as [df|]; [|now left; left].
    destruct (Nat.eq_dec (df_len df) 0); [left; right | right]; now exists df. }
  destruct Hnull as [Hempty|(df & -> & Hlen)].
  { rewrite (compute_empty _ Hempty). exists false, VNone, VNone.
    repeat split; try discriminate.
    intros (w & v & Hw & Hv & Hne). exfalso. apply Hne.
    apply window_cases in Hw as [->|[->|[->| ->]]]; vm_compute in Hv; congruence. }
  destruct (peak_lookup df Hlen) as (pv & pw & Hpv & Hpw & Hhas & Hent).
  pose proof (any_window_peak df) as Hany.
  set (b := py_any _) in Hhas, Hany.
  exists b, pv, pw. split; [exact Hhas|]. split; [exact Hpv|]. split; [exact Hpw|].
  clear Hpv Hpw Hhas. split.
  - rewrite Hany. split.
    + intros (w & q & Hw & Hq). exists w, (VFloat q).
      rewrite (mdp_lookup df w Hlen Hw), Hq. repeat split; [exact Hw | discriminate].
    + intros (w & v & Hw & Hv & Hne). rewrite (mdp_lookup df w Hlen Hw) in Hv.
      injection Hv as <-. exists w.
      destruct (window_peak df w) as [q|]; [now exists q | now elim Hne].
  - destruct Hent as [H5 H10 H20 H30 | p w pre post v Hin Hle Hsplit Hv Hpre].
    + destruct b; [|split; reflexivity].
      destruct Hany as [Hex _]. destruct (Hex eq_refl) as (w & q & Hw & Hq).
      apply window_cases in Hw as [->|[->|[->| ->]]]; congruence.
    + assert (Hb : b = true).
      { apply Hany. apply elem_of_dropna in Hin. rewrite !elem_of_cons, elem_of_nil in Hin.
        destruct Hin as [Hp|[Hp|[Hp|[Hp|[]]]]];
          eauto using window_5, window_10, window_20, window_30. }
      rewrite Hb. split; reflexivity.
Qed.

End PlayerMetrics.

(* ====================================================================== *)
(** * Data coverage                                                        *)
(* ====================================================================== *)

Section Coverage.

Lemma ratio_nonneg (n : nat) (d : Q) :
  (0 < d)%Q -> (0 <= inject_Z (Z.of_nat n) / d * 100)%Q.
Proof.
  intros Hd. apply Qmult_le_0_compat; [|discriminate].
  apply Qle_shift_div_l; [exact Hd|]. rewrite Qmult_0_l.
  change 0%Q with (inject_Z 0). rewrite <- Zle_Qle. lia.
Qed.

Lemma max2_positive (secs : Q) : (0 < max2 1 secs)%Q.
Proof.
  unfold max2. destruct (QMicromega.Qlt_bool 1 secs) eqn:E; [|reflexivity].
  apply QMicromega.Qlt_bool_iff in E. eapply Qlt_trans; [|exact E]. reflexivity.
Qed.

(** [min(100, pct)] keeps a percentage below 100 and caps the rest. *)
Lemma capped (pct : Q) :
  (0 <= pct)%Q ->
  exists q, as_number (py_min2 (VInt 100) (VFloat pct)) = Some q /\ (0 <= q <= 100)%Q.
Proof.
  intros Hpos. unfold py_min2, py_lt. cbn [as_number].
  destruct (QMicromega.Qlt_bool pct (inject_Z 100)) eqn:E.
  - apply QMicromega.Qlt_bool_iff in E. exists pct. cbn [as_number].
    split; [reflexivity|]. split; [exact Hpos | now apply Qlt_le_weak].
  - exists (inject_Z 100). split; [reflexivity|]. split; discriminate.
Qed.

Lemma full_coverage : exists q, as_number (VInt 100) = Some q /\ (0 <= q <= 100)%Q.
Proof. exists (inject_Z 100). split; [reflexivity|]. split; discriminate. Qed.

Lemma pct_coverage_bounds (df : DataFrame) :
  df_len df ≠ 0%nat ->
  exists q, as_number (pct_coverage df) = Some q /\ (0 <= q <= 100)%Q.
Proof.
  intros Hlen. unfold pct_coverage.
  assert (Hpos : (0 <? df_len df)%nat = true) by (apply Nat.ltb_lt; lia).
  rewrite Hpos.
  destruct (df_timestamp df) as [timestamps|]; [|apply full_coverage].
  destruct (1 <? df_len df)%nat; [|apply full_coverage].
  destruct (total_seconds (time_max timestamps) (time_min timestamps)) as [secs|];
    [|apply full_coverage].
  destruct (QMicromega.Qlt_bool 0 secs); [|apply full_coverage].
  apply capped, ratio_nonneg, max2_positive.
Qed.

Lemma pct_coverage_no_elapsed_time (df : DataFrame) (timestamps : list (option Z)) (t : Z) :
  df_len df ≠ 0%nat ->
  df_timestamp df = Some timestamps ->
  time_min timestamps = Some t -> time_max timestamps = Some t ->
  pct_coverage df = VInt 100.
Proof.
  intros Hlen Hts Hmin Hmax. unfold pct_coverage. rewrite Hts, Hmin, Hmax.
  assert (Hpos : (0 <? df_len df)%nat = true) by (apply Nat.ltb_lt; lia).
  rewrite Hpos. destruct (1 <? df_len df)%nat; [|reflexivity].
  unfold total_seconds. rewrite Z.sub_diag. reflexivity.
Qed.

Lemma pct_coverage_no_timestamps (df : DataFrame) :
  df_len df ≠ 0%nat -> df_timestamp df = None -> pct_coverage df = VInt 100.
Proof.
  intros Hlen Hts. unfold pct_coverage. rewrite Hts.
  assert (Hpos : (0 <? df_len df)%nat = true) by (apply Nat.ltb_lt; lia).
  now rewrite Hpos.
Qed.

(** Three samples spread over a second and a half: the ratio is 200 and
    is capped. *)
Example tied_session_coverage : pct_coverage Fixtures.tied_session = VInt 100.
Proof. reflexivity. Qed.

(** Three samples over four seconds cover 75 percent. *)
Example sparse_coverage :
  pct_coverage {| df_len := 3; df_float := ∅;
                  df_timestamp := Some [Some 0%Z; Some 2000000000%Z; Some 4000000000%Z] |}
  = VFloat (3 / (4000000 # 1000000) * 100)%Q.
Proof. reflexivity. Qed.

(** C10. For a session with rows the record holds a ["data_quality"]
    dictionary whose ["coverage"] is a number between 0 and 100; it is
    the integer 100 when the session has more than one sample and its
    first and last timestamps coincide, and when there is no timestamp
    column. *)
Theorem coverage_is_a_percentage (df : DataFrame) :
  df_len df ≠ 0%nat ->
  exists quality c q,
    compute_player_mdp_metrics (Some df) !! "data_quality" = Some (VDict quality)
    /\ quality !! "coverage" = Some c
    /\ as_number c = Some q
    /\ (0 <= q <= 100)%Q
    /\ ((1 < df_len df)%nat ->
        (exists timestamps t, df_timestamp df = Some timestamps
                              /\ time_min timestamps = Some t
                              /\ time_max timestamps = Some t) ->
        c = VInt 100)
    /\ (df_timestamp df = None -> c = VInt 100).
Proof.
  intros Hlen. destruct (compute_nonempty df Hlen) as (pv & pw & -> & _).
  destruct (pct_coverage_bounds df Hlen) as (q & Hq & Hbounds).
  eexists _, (pct_coverage df), q.
  split; [reflexivity|]. split; [reflexivity|]. split; [exact Hq|]. split; [exact Hbounds|].
  split.
  - intros _ (timestamps & t & Hts & Hmin & Hmax).
    now apply (pct_coverage_no_elapsed_time df timestamps t).
  - now apply pct_coverage_no_timestamps.
Qed.

(** C10 on the sample session. *)
Lemma coverage_is_a_percentage_witness :
  exists quality c q,
    compute_player_mdp_metrics (Some Fixtures.tied_session) !! "data_quality"
    = Some (VDict quality)
    /\ quality !! "coverage" = Some c
    /\ as_number c = Some q
    /\ (0 <= q <= 100)%Q
    /\ ((1 < df_len Fixtures.tied_session)%nat ->
        (exists timestamps t, df_timestamp Fixtures.tied_session = Some timestamps
                              /\ time_min timestamps = Some t
                              /\ time_max timestamps = Some t) ->
        c = VInt 100)
    /\ (df_timestamp Fixtures.tied_session = None -> c = VInt 100).
Proof.
  apply (coverage_is_a_percentage Fixtures.tied_session). simpl. lia.
Defined.

End Coverage.

(* ====================================================================== *)
(** * Early / late trend                                                   *)
(* ====================================================================== *)

Section Trend.



(** The conversion is exact on binary64 numbers, here 87.5 and the
    smallest positive one, and rounds an integer that is not one
    (2^53 + 1) to the nearest. *)
Example of_Q_is_exact_on_binary64 :
  of_Q (175 # 2) = 87.5%float
  /\ of_Q (1 # 2 ^ 1074) = 0x1p-1074%float
  /\ of_Q (9007199254740993 # 1) = 9007199254740992%float.
Proof. vm_compute. repeat split. Qed.

(** A rise from 10 to 11 W/kg is a change of 10 percent. *)
Example rising_row_trend :
  result (render_early_mid_late_trend (Some Fixtures.rising_row) "Coach") !! "trend_pct"
  = Some 10%float.
Proof. vm_compute. reflexivity. Qed.

(** At the threshold rounding decides.  The late mean of this row is
    above 105 percent of the early mean, the computed change is exactly
    5.0, which is not greater than 5: the label is "Stable". *)
Example change_that_rounds_to_five_is_stable :
  (105 * (8400000000000019 # 1125899906842624)
   < 100 * (2205000000000005 # 281474976710656))%Q
  /\ render_early_mid_late_trend (Some Fixtures.threshold_row) "Coach"
     = (<["trend_pct" := 5%float]> (<["trend_change" := 0x1.7dfcdece4001p-2%float]> ∅),
        [markdown [Lit "---"];
         markdown [Lit "## 📈 Intensity Trend: Early / Mid / Late"];
         caption [Lit "How intensity changed throughout the session."];
         metric [Lit "Early (1st third)"]
           [Num ".1f" (8400000000000019 # 1125899906842624); Lit " W/kg"];
         metric [Lit "Mid (2nd third)"] [Lit "N/A"];
         metric [Lit "Late (3rd third)"]
           [Num ".1f" (2205000000000005 # 281474976710656); Lit " W/kg"];
         caption [Lit "➡️"; Lit " **"; Lit "Stable (±"; NumF ".1f" 5%float; Lit "%)";
                  Lit "** from early to late"]]).
Proof. split; [reflexivity | vm_compute; reflexivity]. Qed.




End Trend.

(* ====================================================================== *)
(** * Missing signals                                                      *)
(* ====================================================================== *)

Section MissingSignals.

(** The columns kept are the required ones the frame has. *)
Lemma available_cols_spec (raw_df : DataFrame) (col : string) :
  col ∈ available_cols raw_df
  <-> col ∈ required_cols /\ is_Some (df_float raw_df !! col).
Proof.
  unfold available_cols. rewrite !list_elem_of_In, filter_In.
  now rewrite bool_decide_eq_true.
Qed.

Lemma filter_sublist {A} (keep : A -> bool) (l : list A) : List.filter keep l `sublist_of` l.
Proof.
  induction l as [|x l IH]; [constructor|]. cbn [List.filter].
  destruct (keep x); [now apply sublist_skip | now apply sublist_cons].
Qed.

Lemma available_cols_NoDup (raw_df : DataFrame) : NoDup (available_cols raw_df).
Proof.
  apply (sublist_NoDup _ required_cols); [|apply filter_sublist].
  unfold required_cols.
  repeat (apply NoDup_cons_2;
          [rewrite ?elem_of_cons, elem_of_nil; intros Hin; decompose [or] Hin;
           discriminate || assumption|]).
  apply NoDup_nil_2.
Qed.

(** Their number is how many of the four signals are among the columns
    of the frame. *)
Lemma available_cols_count (raw_df : DataFrame) :
  length (available_cols raw_df)
  = size (dom (df_float raw_df) ∩ ({["speed"; "acc"; "hr"; "mp"]} : gset string)).
Proof.
  rewrite <- (size_list_to_set (C := gset string)) by apply available_cols_NoDup.
  f_equal. apply set_eq. intros col.
  rewrite elem_of_list_to_set, available_cols_spec, elem_of_intersection, elem_of_dom.
  unfold required_cols.
  rewrite !elem_of_union, !elem_of_singleton, !elem_of_cons, elem_of_nil. tauto.
Qed.

(** C5. The block counts how many of the four signals [speed], [acc],
    [hr] and [mp] are columns of the raw frame.  With fewer than three
    it does not fail and does not compute an intensity: it issues one
    warning and hands the raw frame on unchanged.  With three or four it
    hands on the frame computed by [calculate_intensity_and_windows]
    from the raw frame, four weights of one quarter and the signals the
    frame has (in the order speed, acc, hr, mp), and issues no
    warning. *)
Theorem missing_signals_fall_back_to_raw_data {Aux : Type}
    (calculate_intensity_and_windows :
       DataFrame -> Q -> Q -> Q -> Q -> list string -> DataFrame * Aux)
    (raw_df : DataFrame) :
  let present : gset string :=
    dom (df_float raw_df) ∩ {["speed"; "acc"; "hr"; "mp"]} in
  ((size present < 3)%nat ->
   session_intensity calculate_intensity_and_windows raw_df
   = (raw_df,
      [spinner [Lit "Computing session intensity and rolling windows..."];
       warning [Lit "⚠️ Not all intensity columns available. Using raw data directly."]]))
  /\ ((3 <= size present)%nat ->
      exists columns,
        session_intensity calculate_intensity_and_windows raw_df
        = ((calculate_intensity_and_windows raw_df (1 # 4) (1 # 4) (1 # 4) (1 # 4)
              columns).1,
           [spinner [Lit "Computing session intensity and rolling windows..."]])
        /\ columns `sublist_of` ["speed"; "acc"; "hr"; "mp"]
        /\ forall col, col ∈ columns <-> col ∈ present).
Proof.
  intros present. unfold present. rewrite <- available_cols_count.
  unfold session_intensity. split; intros Hcount.
  - apply Nat.leb_gt in Hcount. rewrite Hcount. reflexivity.
  - apply Nat.leb_le in Hcount. rewrite Hcount. exists (available_cols raw_df).
    split; [now destruct (calculate_intensity_and_windows _ _ _ _ _ _)|].
    split; [apply filter_sublist|].
    intros col. rewrite available_cols_spec, elem_of_intersection, elem_of_dom.
    unfold required_cols.
  rewrite !elem_of_union, !elem_of_singleton, !elem_of_cons, elem_of_nil. tauto.
Qed.

(** C5 on raw data with two signals and on raw data with three. *)
Lemma missing_signals_fall_back_to_raw_data_witness :
  session_intensity Utils.calculate_intensity_and_windows Fixtures.two_signals
  = (Fixtures.two_signals,
     [spinner [Lit "Computing session intensity and rolling windows..."];
      warning [Lit "⚠️ Not all intensity columns available. Using raw data directly."]])
  /\ exists columns,
       session_intensity Utils.calculate_intensity_and_windows Fixtures.three_signals
       = ((Utils.calculate_intensity_and_windows Fixtures.three_signals
             (1 # 4) (1 # 4) (1 # 4) (1 # 4) columns).1,
          [spinner [Lit "Computing session intensity and rolling windows..."]])
       /\ columns `sublist_of` ["speed"; "acc"; "hr"; "mp"]
       /\ forall col, col ∈ columns
                      <-> col ∈ (dom (df_float Fixtures.three_signals)
                                 ∩ {["speed"; "acc"; "hr"; "mp"]} : gset string).
Proof.
  split.
  - apply (proj1 (missing_signals_fall_back_to_raw_data
                    Utils.calculate_intensity_and_windows Fixtures.two_signals)).
    vm_compute. lia.
  - apply (proj2 (missing_signals_fall_back_to_raw_data
                    Utils.calculate_intensity_and_windows Fixtures.three_signals)).
    vm_compute. lia.
Defined.

End MissingSignals.

(* ====================================================================== *)
(** * Classification                                                       *)
(* ====================================================================== *)

Section Classification.
Import IntensityClassification.

(** The four assertions of [validate_player_analysis_redesign.py]. *)
Example classification_assertions :
  classify_intensity_from_percentile 10 = "Easy"
  /\ classify_intensity_from_percentile 45 = "Medium"
  /\ classify_intensity_from_percentile 70 = "Hard"
  /\ classify_intensity_from_percentile 90 = "Very Hard".
Proof. repeat split. Qed.

(** C2. Every percentile falls in exactly one category: Easy exactly
    below 25, Medium exactly from 25 up to but not including 60, Hard
    exactly from 60 up to but not including 85, Very Hard exactly from
    85; so the four categories cover all numbers, [0,100] included,
    without overlap.  The six boundary samples evaluate as listed. *)
Theorem classification_partitions_percentiles (percentile : Q) :
  (classify_intensity_from_percentile percentile = "Easy" <-> (percentile < 25)%Q)
  /\ (classify_intensity_from_percentile percentile = "Medium"
      <-> (25 <= percentile < 60)%Q)
  /\ (classify_intensity_from_percentile percentile = "Hard"
      <-> (60 <= percentile < 85)%Q)
  /\ (classify_intensity_from_percentile percentile = "Very Hard" <-> (85 <= percentile)%Q)
  /\ classify_intensity_from_percentile percentile ∈ ["Easy"; "Medium"; "Hard"; "Very Hard"]
  /\ classify_intensity_from_percentile (24999 # 1000) = "Easy"
  /\ classify_intensity_from_percentile 25 = "Medium"
  /\ classify_intensity_from_percentile (59999 # 1000) = "Medium"
  /\ classify_intensity_from_percentile 60 = "Hard"
  /\ classify_intensity_from_percentile (84999 # 1000) = "Hard"
  /\ classify_intensity_from_percentile 85 = "Very Hard".
Proof.
  unfold classify_intensity_from_percentile at 1 2 3 4 5.
  destruct (QMicromega.Qlt_bool percentile 25) eqn:H25;
    [apply QMicromega.Qlt_bool_iff in H25 | apply Qlt_bool_false in H25];
    [|destruct (QMicromega.Qlt_bool percentile 60) eqn:H60;
      [apply QMicromega.Qlt_bool_iff in H60 | apply Qlt_bool_false in H60];
      [|destruct (QMicromega.Qlt_bool percentile 85) eqn:H85;
        [apply QMicromega.Qlt_bool_iff in H85 | apply Qlt_bool_false in H85]]];
    repeat match goal with
           | |- _ /\ _ => split
           | |- _ <-> _ => split; intros ?
           | |- _ ∈ _ => rewrite !elem_of_cons; tauto
           | |- @eq string _ _ => first [reflexivity | discriminate | exfalso; lra]
           | |- (_ < _)%Q => first [assumption | discriminate | exfalso; lra]
           | |- (_ <= _)%Q => first [assumption | discriminate | exfalso; lra]
           end.
Qed.

End Classification.

(* ====================================================================== *)
(** * Composite intensity                                                  *)
(* ====================================================================== *)

Section Composite.
Import Utils.

Lemma qsum_scaled {A} (f : A -> Q) (total : Q) (xs : list A) :
  ~ (total == 0)%Q ->
  (qsum (map (fun x => f x / total) xs) == qsum (map f xs) / total)%Q.
Proof.
  intros Hne. induction xs as [|x xs IH]; simpl.
  - field. exact Hne.
  - rewrite IH. field. exact Hne.
Qed.

Lemma tagged_values {A B} (f : A -> B) (xs : list A) :
  (map (fun x => (x, f x)) xs).*2 = map f xs.
Proof. induction xs as [|x xs IH]; simpl; [reflexivity | now f_equal]. Qed.

Lemma effective_weights_names (raw_df : DataFrame) (w_speed w_acc w_hr w_mp : Q) :
  (effective_weights raw_df w_speed w_acc w_hr w_mp).*1 = available_signals raw_df.
Proof.
  unfold effective_weights. induction (available_signals raw_df) as [|x xs IH] at 2 3.
  - reflexivity.
  - simpl. f_equal. exact IH.
Qed.

Lemma intensity_column (raw_df : DataFrame) (w_speed w_acc w_hr w_mp : Q)
    (columns_to_plot : list string) :
  df_float (calculate_intensity_and_windows raw_df w_speed w_acc w_hr w_mp columns_to_plot).1
    !! "intensity"
  = Some (intensity_raw raw_df w_speed w_acc w_hr w_mp).
Proof.
  unfold calculate_intensity_and_windows, Utils.WINDOWS. cbn [fst df_float foldl].
  rewrite !lookup_insert_ne by (vm_compute; discriminate).
  apply lookup_insert_eq.
Qed.

(** A window longer than the session is never full: its column has no
    defined cell. *)
Lemma rolling_mean_short_session (w : nat) (xs : list (option Q)) :
  (length xs < w)%nat -> forall c, c ∈ rolling_mean w xs -> c = None.
Proof.
  intros Hshort c Hc. unfold rolling_mean in Hc.
  apply list_elem_of_fmap in Hc as (i & -> & Hi). apply elem_of_seq in Hi.
  destruct (w <=? i + 1)%nat eqn:E; [|reflexivity].
  apply Nat.leb_le in E. lia.
Qed.

(** The frame the page computes from the three-signal data: the weights
    in force are thirds, not quarters, and the 5 s window is the only one
    that fills up in six rows. *)
Example three_signals_weights :
  Forall (fun nw => (nw.2 == 1 # 3)%Q)
         (effective_weights Fixtures.three_signals (1 # 4) (1 # 4) (1 # 4) (1 # 4))
  /\ (effective_weights Fixtures.three_signals (1 # 4) (1 # 4) (1 # 4) (1 # 4)).*1
     = ["speed"; "hr"; "mp"].
Proof. split; [|reflexivity]. repeat constructor. Qed.

Example three_signals_metrics :
  let session_data :=
    result (session_intensity calculate_intensity_and_windows Fixtures.three_signals) in
  compute_player_mdp_metrics (Some session_data) !! "mdp_10" = Some VNone
  /\ compute_player_mdp_metrics (Some session_data) !! "mdp_peak_window" = Some (VStr "5s")
  /\ compute_player_mdp_metrics (Some session_data) !! "has_peak_data" = Some (VBool true).
Proof. vm_compute. repeat split. Qed.

(** C7. Whatever signals the frame has, as long as their weights have a
    positive total: the weights in force are those of the remaining
    signals, each divided by the total of the remaining weights, so they
    sum to one; a missing signal has no term; and the ["intensity"]
    column is the linear combination of the rescaled signals with these
    weights. *)
Theorem remaining_weights_are_renormalised (raw_df : DataFrame)
    (w_speed w_acc w_hr w_mp : Q) (columns_to_plot : list string) :
  (0 < qsum (map (signal_weight w_speed w_acc w_hr w_mp) (available_signals raw_df)))%Q ->
  (effective_weights raw_df w_speed w_acc w_hr w_mp).*1 = available_signals raw_df
  /\ (forall name, name ∈ available_signals raw_df
                   <-> name ∈ SIGNALS /\ is_Some (df_float raw_df !! name))
  /\ (forall name w, (name, w) ∈ effective_weights raw_df w_speed w_acc w_hr w_mp ->
        (w == signal_weight w_speed w_acc w_hr w_mp name
              / qsum (map (signal_weight w_speed w_acc w_hr w_mp) (available_signals raw_df)))%Q)
  /\ (qsum ((effective_weights raw_df w_speed w_acc w_hr w_mp).*2) == 1)%Q
  /\ df_float (calculate_intensity_and_windows raw_df w_speed w_acc w_hr w_mp
                 columns_to_plot).1 !! "intensity"
     = Some (map (fun i => nan_sum (map (term raw_df i)
                                        (effective_weights raw_df w_speed w_acc w_hr w_mp)))
                 (seq 0 (df_len raw_df))).
Proof.
  intros Htotal.
  assert (Hne : ~ (qsum (map (signal_weight w_speed w_acc w_hr w_mp)
                             (available_signals raw_df)) == 0)%Q).
  { intros H. rewrite H in Htotal. discriminate. }
  split; [apply effective_weights_names|]. split; [|split; [|split]].
  - intros name. unfold available_signals.
    rewrite !list_elem_of_In, filter_In. now rewrite bool_decide_eq_true.
  - intros name w Hin. unfold effective_weights in Hin.
    apply list_elem_of_fmap in Hin as (x & [= -> ->] & _). apply Qeq_refl.
  - unfold effective_weights.
    set (remaining := available_signals raw_df) in *.
    set (total := qsum (map (signal_weight w_speed w_acc w_hr w_mp) remaining)) in *.
    rewrite tagged_values, (qsum_scaled _ total remaining Hne). fold total. field. exact Hne.
  - apply intensity_column.
Qed.

(** C7 on raw data with three signals and the weights of the page. *)
Lemma remaining_weights_are_renormalised_witness :
  (effective_weights Fixtures.three_signals (1 # 4) (1 # 4) (1 # 4) (1 # 4)).*1
  = available_signals Fixtures.three_signals
  /\ (forall name, name ∈ available_signals Fixtures.three_signals
                   <-> name ∈ SIGNALS /\ is_Some (df_float Fixtures.three_signals !! name))
  /\ (forall name w,
        (name, w) ∈ effective_weights Fixtures.three_signals (1 # 4) (1 # 4) (1 # 4) (1 # 4) ->
        (w == signal_weight (1 # 4) (1 # 4) (1 # 4) (1 # 4) name
              / qsum (map (signal_weight (1 # 4) (1 # 4) (1 # 4) (1 # 4))
                          (available_signals Fixtures.three_signals)))%Q)
  /\ (qsum ((effective_weights Fixtures.three_signals (1 # 4) (1 # 4) (1 # 4) (1 # 4)).*2)
      == 1)%Q
  /\ df_float (calculate_intensity_and_windows Fixtures.three_signals
                 (1 # 4) (1 # 4) (1 # 4) (1 # 4) ["speed"; "hr"; "mp"]).1 !! "intensity"
     = Some (map (fun i => nan_sum (map (term Fixtures.three_signals i)
                    (effective_weights Fixtures.three_signals (1 # 4) (1 # 4) (1 # 4) (1 # 4))))
                 (seq 0 (df_len Fixtures.three_signals))).
Proof.
  apply (remaining_weights_are_renormalised Fixtures.three_signals
           (1 # 4) (1 # 4) (1 # 4) (1 # 4) ["speed"; "hr"; "mp"]).
  vm_compute. reflexivity.
Defined.

End Composite.

(* ====================================================================== *)
(** * Weight presets                                                       *)
(* ====================================================================== *)

Section WeightPresets.
Import MpIntensityPipeline SessionIntensityExplorer.

(** The three sub-scores really enter the index: on the sample data the
    ranking by index is the same under the three presets but every index
    changes. *)
Example balanced_preset_indices :
  map session_intensity_index
      <$> get_session_intensity_df Fixtures.disk "full_players_df.csv"
            (Some 0.30%float) (Some 0.50%float) (Some 0.20%float)
  = Some [0.2195941223158549%float; 0.83318907256004082%float; (-1.0527831948758961)%float].
Proof. vm_compute. reflexivity. Qed.

(** The call of [main], which passes the path only, is scored with the
    weights written in the signature. *)
Lemma main_uses_signature_weights (disk : gmap string (list Sample)) (raw_path : string) :
  main_session_df disk raw_path
  = get_session_intensity_df disk raw_path
      (Some 0.30%float) (Some 0.50%float) (Some 0.20%float).
Proof. reflexivity. Qed.

(** C6, as stated, fails: a call that passes no weight returns a scored
    session frame. *)
Lemma scoring_call_relies_on_default_weights : ~ weights_always_passed.
Proof.
  intros Hall.
  assert (Hcall : exists rows,
             get_session_intensity_df Fixtures.disk "full_players_df.csv" None None None
             = Some rows) by (eexists; reflexivity).
  destruct Hcall as (rows & Hrows).
  destruct (Hall _ _ _ _ _ _ Hrows) as [[w Hw] _]. discriminate Hw.
Qed.

(** C6, amended. There is raw data on which the presets (0.30, 0.50,
    0.20), (0.50, 0.30, 0.20) and (0.20, 0.40, 0.40) give session indices
    that differ, pair by pair.  The weights are parameters of
    [get_session_intensity_df] with the defaults 0.30, 0.50 and 0.20: the
    frame is scored with each weight passed and with the default for each
    weight left out, as in the call of [main], which passes none. *)
Theorem presets_disagree_and_weights_default :
  (exists disk raw_path balanced speed volume,
      get_session_intensity_df disk raw_path
        (Some 0.30%float) (Some 0.50%float) (Some 0.20%float) = Some balanced
      /\ get_session_intensity_df disk raw_path
           (Some 0.50%float) (Some 0.30%float) (Some 0.20%float) = Some speed
      /\ get_session_intensity_df disk raw_path
           (Some 0.20%float) (Some 0.40%float) (Some 0.40%float) = Some volume
      /\ indices_differ balanced speed = true
      /\ indices_differ balanced volume = true
      /\ indices_differ speed volume = true)
  /\ (forall disk raw_path w_e w_r w_v,
        get_session_intensity_df disk raw_path w_e w_r w_v
        = raw ← load_raw_data disk raw_path;
          Some (build_session_intensity_df raw
                  {| w_explosiveness := default 0.30%float w_e;
                     w_repeatability := default 0.50%float w_r;
                     w_volume := default 0.20%float w_v |}))
  /\ (forall disk raw_path,
        main_session_df disk raw_path
        = get_session_intensity_df disk raw_path
            (Some 0.30%float) (Some 0.50%float) (Some 0.20%float)).
Proof.
  split; [|split; [reflexivity | apply main_uses_signature_weights]].
  exists Fixtures.disk, "full_players_df.csv".
  do 3 eexists. split; [reflexivity|]. split; [reflexivity|]. split; [reflexivity|].
  vm_compute. repeat split.
Qed.

End WeightPresets.

(* ====================================================================== *)
(** * The record of peak metrics: keys and coverage                        *)
(* ====================================================================== *)

Section RecordShape.
Import PlayersSections.

(** X1. Whatever frame it is given (none, one without rows, one with
    rows), [compute_player_mdp_metrics] returns a dictionary with exactly
    the eight keys [mdp_5], [mdp_10], [mdp_20], [mdp_30],
    [mdp_peak_value], [mdp_peak_window], [data_quality] and
    [has_peak_data]. *)
Theorem metrics_record_has_fixed_keys (player_session_df : option DataFrame) :
  dom (compute_player_mdp_metrics player_session_df)
  = ({["mdp_5"; "mdp_10"; "mdp_20"; "mdp_30"; "mdp_peak_value"; "mdp_peak_window";
       "data_quality"; "has_peak_data"]} : gset string).
Proof.
  assert (Hcases : (player_session_df = None
                    \/ exists df, player_session_df = Some df /\ df_len df = 0%nat)
                   \/ exists df, player_session_df = Some df /\ df_len df ≠ 0%nat).
  { destruct player_session_df as [df|]; [|now left; left].
    destruct (Nat.eq_dec (df_len df) 0); [left; right | right]; now exists df. }
  destruct Hcases as [Hempty|(df & -> & Hlen)].
  - rewrite (compute_empty _ Hempty). unfold empty_metrics.
    rewrite !dom_insert_L, dom_empty_L. set_solver.
  - destruct (compute_nonempty df Hlen) as (pv & pw & -> & _). unfold after_loop.
    rewrite !dom_insert_L, dom_empty_L. set_solver.
Qed.

Lemma sample_count_over_seconds (n : nat) (secs : Q) :
  (0 < secs)%Q ->
  ((inject_Z (Z.of_nat n) / secs * 100 < 100)%Q <-> (inject_Z (Z.of_nat n) < secs)%Q).
Proof.
  intros Hpos.
  assert (Hne : ~ (secs == 0)%Q) by (intros H; rewrite H in Hpos; discriminate).
  assert (Hscale : (inject_Z (Z.of_nat n) / secs * 100 * secs == 100 * inject_Z (Z.of_nat n))%Q)
    by (field; exact Hne).
  split; intros H.
  - apply (Qmult_lt_compat_r _ _ secs) in H; [|exact Hpos]. rewrite Hscale in H. lra.
  - apply (Qmult_lt_r _ _ secs); [exact Hpos|]. rewrite Hscale. lra.
Qed.

(** X2. A session of more than one sample whose timestamps span no more
    seconds than it has samples (the span counted in whole
    microseconds, as [total_seconds()] counts it) has a coverage of
    exactly the integer 100: at one sample per second or more the ratio
    reaches 100 and the cap returns its own 100. *)
Theorem coverage_is_full_at_one_sample_per_second (df : DataFrame)
    (timestamps : list (option Z)) (first last : Z) :
  (1 < df_len df)%nat ->
  df_timestamp df = Some timestamps ->
  time_min timestamps = Some first -> time_max timestamps = Some last ->
  ((last - first) / 1000 <= Z.of_nat (df_len df) * 1000000)%Z ->
  pct_coverage df = VInt 100.
Proof.
  intros Hlen Hts Hmin Hmax Hspan.
  set (samples := inject_Z (Z.of_nat (df_len df))).
  set (secs := (((last - first) / 1000) # 1000000)%Q).
  assert (Hone : (1 <= samples)%Q).
  { unfold samples. change 1%Q with (inject_Z 1). rewrite <- Zle_Qle. lia. }
  assert (Hsecs : (secs <= samples)%Q).
  { unfold secs, samples, Qle. simpl. lia. }
  unfold pct_coverage. rewrite Hts, Hmin, Hmax.
  apply Nat.ltb_lt in Hlen. rewrite Hlen. cbn [total_seconds]. fold secs samples.
  destruct (QMicromega.Qlt_bool 0 secs); [|reflexivity].
  unfold py_min2, py_lt. cbn [as_number].
  assert (Hge : QMicromega.Qlt_bool (samples / max2 1 secs * 100) (inject_Z 100) = false).
  { apply not_true_is_false. intros E.
    apply QMicromega.Qlt_bool_iff in E.
    apply sample_count_over_seconds in E; [|apply max2_positive].
    fold samples in E. unfold max2 in E. destruct (QMicromega.Qlt_bool 1 secs); lra. }
  now rewrite Hge.
Qed.

(** X2 on three samples spread over three seconds and a nanosecond. *)
Lemma coverage_is_full_at_one_sample_per_second_witness :
  pct_coverage three_second_session = VInt 100.
Proof.
  apply (coverage_is_full_at_one_sample_per_second three_second_session
           [Some 0%Z; Some 1500000000%Z; Some 3000000001%Z] 0 3000000001).
  - simpl. lia.
  - reflexivity.
  - reflexivity.
  - reflexivity.
  - vm_compute. discriminate.
Defined.

End RecordShape.

(* ====================================================================== *)
(** * The trend section without a usable early mean                        *)
(* ====================================================================== *)

Section TrendEdges.
Import PlayersSections.

(** X3. When there is no row, or the row has none of the three thirds
    ([early_mp], [mid_mp] and [late_mp] are absent or NaN),
    [render_early_mid_late_trend] writes nothing to the page, not even
    its heading, and returns the empty dictionary. *)
Theorem trend_section_is_silent_without_thirds
    (metrics_row : option (gmap string (option Q))) (view_mode : string) :
  (forall row, metrics_row = Some row ->
     get row "early_mp" = None /\ get row "mid_mp" = None /\ get row "late_mp" = None) ->
  render_early_mid_late_trend metrics_row view_mode = (∅, []).
Proof.
  intros Hnone. destruct metrics_row as [row|]; [|reflexivity].
  destruct (Hnone row eq_refl) as (He & Hm & Hl).
  unfold render_early_mid_late_trend. rewrite He, Hm, Hl. cbn [forallb isna andb].
  now destruct (size row =? 0)%nat.
Qed.

(** X3 on a row that has other cells but no third. *)
Lemma trend_section_is_silent_without_thirds_witness :
  render_early_mid_late_trend (Some (numbers unscored_row)) "Coach" = (∅, []).
Proof.
  apply (trend_section_is_silent_without_thirds (Some (numbers unscored_row)) "Coach").
  intros row [= <-]. repeat split; reflexivity.
Defined.

(** X4. When the row has one of the thirds but the early mean or the
    late mean is missing, or the early mean is not positive, the section
    writes its heading and the three tiles and stops there: no
    interpretation line is written and the returned dictionary is empty,
    so no percentage is computed by dividing by an early mean of zero. *)
Theorem trend_needs_positive_early_mean
    (row : gmap string (option Q)) (view_mode : string) :
  (is_Some (get row "early_mp") \/ is_Some (get row "mid_mp")
   \/ is_Some (get row "late_mp")) ->
  (get row "early_mp" = None \/ get row "late_mp" = None
   \/ exists early, get row "early_mp" = Some early /\ (early <= 0)%Q) ->
  render_early_mid_late_trend (Some row) view_mode
  = (∅,
     [markdown [Lit "---"];
      markdown [Lit "## 📈 Intensity Trend: Early / Mid / Late"];
      caption [Lit "How intensity changed throughout the session."]]
     ++ written (third_tile "Early (1st third)" (get row "early_mp"))
     ++ written (third_tile "Mid (2nd third)" (get row "mid_mp"))
     ++ written (third_tile "Late (3rd third)" (get row "late_mp"))).
Proof.
  intros Hsome Hbad. unfold render_early_mid_late_trend.
  assert (Hsize : (size row =? 0)%nat = false).
  { apply Nat.eqb_neq. intros Hz. apply map_size_empty_iff in Hz. subst row.
    unfold get in Hsome. rewrite !lookup_empty in Hsome.
    destruct Hsome as [[? H]|[[? H]|[? H]]]; discriminate H. }
  rewrite Hsize.
  assert (Hany : forallb isna [get row "early_mp"; get row "mid_mp"; get row "late_mp"] = false).
  { cbn [forallb]. destruct Hsome as [[? ->]|[[? ->]|[? ->]]]; cbn [isna andb];
      rewrite ?andb_false_r; reflexivity. }
  rewrite Hany.
  destruct (get row "early_mp") as [early|] eqn:He, (get row "mid_mp") as [mid|],
    (get row "late_mp") as [late|] eqn:Hl; try reflexivity;
    try (destruct Hbad as [Hb|[Hb|(e & Hb & Hle)]]; try discriminate Hb;
         injection Hb as <-;
         assert (Hneg : QMicromega.Qlt_bool 0 early = false)
           by (destruct (QMicromega.Qlt_bool 0 early) eqn:E; [|reflexivity];
               apply QMicromega.Qlt_bool_iff in E; exfalso; lra);
         rewrite Hneg; reflexivity).
  all: destruct (QMicromega.Qlt_bool 0 early); reflexivity.
Qed.

(** X4 on a row whose early mean is zero. *)
Lemma trend_needs_positive_early_mean_witness :
  render_early_mid_late_trend (Some flat_start_row) "Coach"
  = (∅,
     [markdown [Lit "---"];
      markdown [Lit "## 📈 Intensity Trend: Early / Mid / Late"];
      caption [Lit "How intensity changed throughout the session."]]
     ++ written (third_tile "Early (1st third)" (get flat_start_row "early_mp"))
     ++ written (third_tile "Mid (2nd third)" (get flat_start_row "mid_mp"))
     ++ written (third_tile "Late (3rd third)" (get flat_start_row "late_mp"))).
Proof.
  apply (trend_needs_positive_early_mean flat_start_row "Coach").
  - left. exists 0%Q. reflexivity.
  - right. right. exists 0%Q. split; [reflexivity | discriminate].
Defined.

End TrendEdges.

(* ====================================================================== *)
(** * Session snapshot                                                     *)
(* ====================================================================== *)

Section Snapshot.
Import PlayersSections.

Lemma row_with_number_is_not_empty (row : MetricsRow) (key : string) (v : Q) :
  get (numbers row) key = Some v -> row_empty row = false.
Proof.
  intros Hget. unfold row_empty. apply Nat.eqb_neq. intros Hsize.
  assert (Hz : size (numbers row) = 0%nat) by lia.
  apply map_size_empty_iff in Hz. unfold get in Hget. rewrite Hz, lookup_empty in Hget.
  discriminate Hget.
Qed.

Lemma empty_row_has_no_number (row : MetricsRow) (key : string) :
  row_empty row = true -> get (numbers row) key = None.
Proof.
  intros Hempty. destruct (get (numbers row) key) as [v|] eqn:Hget; [|reflexivity].
  apply row_with_number_is_not_empty in Hget. congruence.
Qed.

(** X5. When there is no row, or the row has no [intensity_score] (the
    key is absent or the cell is NaN), [render_session_snapshot] writes
    its heading and caption, then the one notice "No metrics available
    for selected player-session.", and no tile, whatever else the row
    holds. *)
Theorem snapshot_without_score_shows_only_notice
    (format_percentile format_z_score : Q -> string)
    (metrics_row : option MetricsRow) (selected_player_display view_mode : string) :
  cell_of metrics_row "intensity_score" = None ->
  render_session_snapshot format_percentile format_z_score metrics_row
    selected_player_display view_mode
  = [plain (markdown [Lit "---"]);
     plain (markdown [Lit "## 📊 Session Snapshot"]);
     plain (caption [Lit "Performance metrics for "; Lit selected_player_display; Lit "."]);
     info [Lit "No metrics available for selected player-session."]].
Proof.
  intros Hscore. unfold render_session_snapshot.
  destruct metrics_row as [row|]; [|reflexivity]. cbn in Hscore. rewrite Hscore.
  cbn [isna]. now rewrite orb_true_r.
Qed.

(** X5 on a row that has a 10 s peak and a NaN score. *)
Lemma snapshot_without_score_shows_only_notice_witness :
  render_session_snapshot whole_part whole_part (Some unscored_row) "Player 7" "Coach"
  = [plain (markdown [Lit "---"]);
     plain (markdown [Lit "## 📊 Session Snapshot"]);
     plain (caption [Lit "Performance metrics for "; Lit "Player 7"; Lit "."]);
     info [Lit "No metrics available for selected player-session."]].
Proof.
  apply (snapshot_without_score_shows_only_notice whole_part whole_part
           (Some unscored_row) "Player 7" "Coach").
  reflexivity.
Defined.

(** X6. For a row with an [intensity_score] the snapshot always shows
    the same five tiles in the same order (Intensity, Peak 10s, Peak 20s,
    Peak 30s, Total Load), whichever of their cells are missing: a
    missing cell changes what a tile shows, never whether it is there. *)
Theorem snapshot_always_shows_five_tiles
    (format_percentile format_z_score : Q -> string)
    (row : MetricsRow) (selected_player_display view_mode : string) (score : Q) :
  get (numbers row) "intensity_score" = Some score ->
  omap metric_label
    (render_session_snapshot format_percentile format_z_score (Some row)
       selected_player_display view_mode)
  = [[Lit "Intensity"]; [Lit "Peak 10s (W/kg)"]; [Lit "Peak 20s (W/kg)"];
     [Lit "Peak 30s (W/kg)"]; [Lit "Total Load (AU)"]].
Proof.
  intros Hscore. unfold render_session_snapshot.
  rewrite (row_with_number_is_not_empty row _ _ Hscore), Hscore. cbn [isna orb].
  unfold tile.
  destruct (get (numbers row) "intensity_percentile"), (get (numbers row) "z_intensity"),
    (get (numbers row) "mdp10"), (get (numbers row) "mdp20"), (get (numbers row) "mdp30"),
    (get (numbers row) "total_load"), (get (numbers row) "baseline_28d_intensity");
    reflexivity.
Qed.

(** X6 on the scored sample row, which lacks three of the five cells. *)
Lemma snapshot_always_shows_five_tiles_witness :
  omap metric_label
    (render_session_snapshot whole_part whole_part (Some scored_row) "Player 7" "Coach")
  = [[Lit "Intensity"]; [Lit "Peak 10s (W/kg)"]; [Lit "Peak 20s (W/kg)"];
     [Lit "Peak 30s (W/kg)"]; [Lit "Total Load (AU)"]].
Proof.
  apply (snapshot_always_shows_five_tiles whole_part whole_part scored_row
           "Player 7" "Coach" (72 # 1)).
  reflexivity.
Defined.

(** X7. Whenever the snapshot passes a [delta] to a tile, that delta is
    the row's [intensity_category] cell, and it is neither the empty
    text nor the text "Unknown": those two categories are never shown
    under the Intensity tile.  (A NaN category cell is passed on as it
    is.) *)
Theorem snapshot_never_shows_unknown_category
    (format_percentile format_z_score : Q -> string)
    (metrics_row : option MetricsRow) (selected_player_display view_mode : string)
    (label shown : list frag) (delta : option string) :
  metric_delta label shown (Some delta)
    ∈ render_session_snapshot format_percentile format_z_score metrics_row
        selected_player_display view_mode ->
  delta ≠ Some "" /\ delta ≠ Some "Unknown"
  /\ exists row, metrics_row = Some row /\ texts row !! "intensity_category" = Some delta.
Proof.
  unfold render_session_snapshot. intros Hin.
  apply elem_of_app in Hin as [Hin|Hin].
  { rewrite !elem_of_cons, elem_of_nil in Hin. destruct Hin as [H|[H|[H|[]]]]; discriminate H. }
  destruct metrics_row as [row|];
    [|apply list_elem_of_singleton in Hin; discriminate Hin].
  destruct (row_empty row || isna (get (numbers row) "intensity_score"));
    [apply list_elem_of_singleton in Hin; discriminate Hin|].
  unfold tile in Hin.
  assert (Hhead : metric_delta label shown (Some delta)
                  = match get (numbers row) "intensity_percentile" with
                    | Some p =>
                        metric_delta [Lit "Intensity"] [Lit (format_percentile p)]
                          match texts row !! "intensity_category" with
                          | Some (Some category) =>
                              if negb (String.eqb category "")
                                 && negb (String.eqb category "Unknown")
                              then Some (Some category) else None
                          | Some None => Some None
                          | None => None
                          end
                    | None => plain (metric [Lit "Intensity"] [Lit "N/A"])
                    end).
  { rewrite !elem_of_app, !elem_of_cons, elem_of_nil in Hin.
    destruct Hin as [[H|[H|[H|[H|[H|[]]]]]]|[H|H]]; [exact H|..].
    - destruct (get (numbers row) "mdp10"); discriminate H.
    - destruct (get (numbers row) "mdp20"); discriminate H.
    - destruct (get (numbers row) "mdp30"); discriminate H.
    - destruct (get (numbers row) "total_load"); discriminate H.
    - destruct (get (numbers row) "z_intensity");
        [apply list_elem_of_singleton in H; discriminate H | inversion H].
    - destruct (get (numbers row) "baseline_28d_intensity");
        [apply list_elem_of_singleton in H; discriminate H | inversion H]. }
  destruct (get (numbers row) "intensity_percentile"); [|discriminate Hhead].
  destruct (texts row !! "intensity_category") as [[category|]|] eqn:Hcat;
    [| |discriminate Hhead].
  - destruct (String.eqb category "") eqn:Hblank; [discriminate Hhead|].
    destruct (String.eqb category "Unknown") eqn:Hunknown; [discriminate Hhead|].
    cbn [negb andb] in Hhead. injection Hhead as _ _ ->.
    apply String.eqb_neq in Hblank, Hunknown.
    split; [congruence|]. split; [congruence|]. now exists row.
  - injection Hhead as _ _ ->. split; [discriminate|]. split; [discriminate|]. now exists row.
Qed.

(** X7 on the scored sample row, whose category is "Very High". *)
Lemma snapshot_never_shows_unknown_category_witness :
  Some "Very High" ≠ Some "" /\ Some "Very High" ≠ Some "Unknown"
  /\ exists row, Some scored_row = Some row
                 /\ texts row !! "intensity_category" = Some (Some "Very High").
Proof.
  apply (snapshot_never_shows_unknown_category whole_part whole_part (Some scored_row)
           "Player 7" "Coach" [Lit "Intensity"] [Lit "87"] (Some "Very High")).
  apply list_elem_of_In. vm_compute. tauto.
Defined.

End Snapshot.

(* ====================================================================== *)
(** * Team comparison                                                      *)
(* ====================================================================== *)

Section TeamComparison.
Import PlayersSections.

(** X8. The dictionary [render_team_comparison] returns always has the
    three keys [intensity_pct], [peak10_pct] and [total_load_pct], and
    each holds the row's percentile cell unchanged (as a float, not the
    truncated rank the tile shows), or [None] when there is no row or the
    cell is missing. *)
Theorem team_percentiles_mirror_row (ordinal_suffix : Z -> string)
    (metrics_row : option MetricsRow) (view_mode : string) :
  dom (render_team_comparison ordinal_suffix metrics_row view_mode).1
  = ({["intensity_pct"; "peak10_pct"; "total_load_pct"]} : gset string)
  /\ (render_team_comparison ordinal_suffix metrics_row view_mode).1 !! "intensity_pct"
     = Some (cell (cell_of metrics_row "intensity_percentile"))
  /\ (render_team_comparison ordinal_suffix metrics_row view_mode).1 !! "peak10_pct"
     = Some (cell (cell_of metrics_row "peak10_percentile"))
  /\ (render_team_comparison ordinal_suffix metrics_row view_mode).1 !! "total_load_pct"
     = Some (cell (cell_of metrics_row "total_load_percentile")).
Proof.
  unfold render_team_comparison. destruct metrics_row as [row|]; cbn [cell_of mbind option_bind].
  - destruct (row_empty row) eqn:Hempty.
    + rewrite !(empty_row_has_no_number row _ Hempty). cbn [fst cell].
      split; [rewrite !dom_insert_L, dom_empty_L; set_solver | repeat split].
    + unfold percentile_tile.
      destruct (get (numbers row) "intensity_percentile"),
        (get (numbers row) "peak10_percentile"), (get (numbers row) "total_load_percentile");
        cbn [fst cell];
        (split; [rewrite !dom_insert_L, dom_empty_L; set_solver | repeat split]).
  - cbn [fst cell]. split; [rewrite !dom_insert_L, dom_empty_L; set_solver | repeat split].
Qed.

Lemma py_int_is_floor (p : Q) :
  (0 <= p)%Q -> (inject_Z (py_int p) <= p < inject_Z (py_int p) + 1)%Q.
Proof.
  intros Hpos. assert (Hfloor : py_int p = Qfloor p).
  { destruct p as [n d]. unfold py_int, Qfloor. cbn [Qnum Qden].
    apply Z.quot_div_nonneg; [|lia]. unfold Qle in Hpos. simpl in Hpos. lia. }
  rewrite Hfloor. split; [apply Qfloor_le|].
  change 1%Q with (inject_Z 1). rewrite <- (inject_Z_plus (Qfloor p) 1). apply Qlt_floor.
Qed.

(** X9. The rank shown on the Intensity Percentile tile is the integer
    part of a non-negative percentile, never its nearest integer: the
    tile shows [ordinal_suffix rank] with [rank <= percentile < rank + 1]
    (87.5 is shown as the 87th). *)
Theorem shown_rank_is_integer_part (ordinal_suffix : Z -> string)
    (row : MetricsRow) (view_mode : string) (p : Q) :
  get (numbers row) "intensity_percentile" = Some p ->
  (0 <= p)%Q ->
  exists rank : Z,
    shown_under "Intensity Percentile"
      (render_team_comparison ordinal_suffix (Some row) view_mode).2
    = [[Lit (ordinal_suffix rank)]]
    /\ (inject_Z rank <= p < inject_Z rank + 1)%Q.
Proof.
  intros Hget Hpos. exists (py_int p). split; [|now apply py_int_is_floor].
  unfold render_team_comparison.
  rewrite (row_with_number_is_not_empty row _ _ Hget), Hget. unfold percentile_tile.
  destruct (get (numbers row) "peak10_percentile"),
    (get (numbers row) "total_load_percentile"); reflexivity.
Qed.

(** X9 on the scored sample row, whose percentile is 87.5. *)
Lemma shown_rank_is_integer_part_witness :
  exists rank : Z,
    shown_under "Intensity Percentile"
      (render_team_comparison ordinal_th (Some scored_row) "Coach").2
    = [[Lit (ordinal_th rank)]]
    /\ (inject_Z rank <= 175 # 2 < inject_Z rank + 1)%Q.
Proof.
  apply (shown_rank_is_integer_part ordinal_th scored_row "Coach" (175 # 2)).
  - reflexivity.
  - discriminate.
Defined.

End TeamComparison.

(* ====================================================================== *)
(** * MDP summary                                                          *)
(* ====================================================================== *)

Section MdpSummary.
Import PlayersSections.

Lemma coverage_of_a_session_is_green (n : nat) :
  n ≠ 0%nat -> coverage_color (data_coverage n) = "🟢".
Proof.
  intros Hn. unfold coverage_color.
  assert (Hfull : (data_coverage n == 1)%Q).
  { unfold data_coverage. rewrite Nat.max_r by lia. field.
    change 0%Q with (inject_Z 0). rewrite inject_Z_injective. lia. }
  assert (Hle : Qle_bool (8 # 10) (data_coverage n) = true).
  { apply Qle_bool_iff. rewrite Hfull. discriminate. }
  now rewrite Hle.
Qed.

(** X10. The data-quality line of [render_mdp_summary] always carries
    the green marker: the ratio it is chosen from is the number of
    samples over itself, so the yellow and red markers are never
    shown. *)
Theorem mdp_summary_marker_is_always_green {Aux : Type}
    (compute_mdp : list Q -> nat -> option Q * Aux) (format_mdp_display : Q -> string)
    (player_session_df : option DataFrame) (metrics_row : option MetricsRow)
    (view_mode : string) (color : string) (rest : list frag) :
  plain (caption (Lit color :: Lit " Data: " :: rest))
    ∈ render_mdp_summary compute_mdp format_mdp_display player_session_df metrics_row
        view_mode ->
  color = "🟢".
Proof.
  unfold render_mdp_summary. destruct player_session_df as [df|]; [|inversion 1].
  destruct (df_len df =? 0)%nat eqn:Hlen; [inversion 1|]. apply Nat.eqb_neq in Hlen.
  rewrite (coverage_of_a_session_is_green _ Hlen). unfold tile.
  assert (Hheader : forall tail,
    plain (caption (Lit color :: Lit " Data: " :: rest))
      ∈ [plain (markdown [Lit "---"]);
         plain (markdown [Lit "## 🔥 MDP Summary (Analyst Detail)"]);
         plain (caption [Lit "Peaks show highest rolling average metabolic power for each window."])]
        ++ tail ->
    plain (caption (Lit color :: Lit " Data: " :: rest)) ∈ tail).
  { intros tail Hin. apply elem_of_app in Hin as [Hin|Hin]; [|exact Hin].
    rewrite !elem_of_cons, elem_of_nil in Hin. destruct Hin as [H|[H|[H|[]]]]; discriminate H. }
  assert (Htiles : forall m5 m10 m20 m30 : option Q,
    plain (caption (Lit color :: Lit " Data: " :: rest))
      ∈ map (fun wv : nat * option Q =>
               match wv.2 with
               | Some v => plain (metric [Lit ("Peak " +:+ pretty wv.1 +:+ "s")]
                                         [Lit (format_mdp_display v)])
               | None => plain (metric [Lit ("Peak " +:+ pretty wv.1 +:+ "s")] [Lit "N/A"])
               end)
            [(5, m5); (10, m10); (20, m20); (30, m30)]%nat
        ++ [plain (caption [Lit "🟢"; Lit " Data: ";
                            Num "d" (inject_Z (Z.of_nat (df_len df))); Lit " samples"])] ->
    color = "🟢").
  { intros m5 m10 m20 m30 Hin. apply elem_of_app in Hin as [Hin|Hin].
    - apply list_elem_of_fmap in Hin as ([w o] & Heq & _). cbn [fst snd] in Heq.
      destruct o; discriminate Heq.
    - apply list_elem_of_singleton in Hin. now injection Hin. }
  assert (Hnone : plain (caption (Lit color :: Lit " Data: " :: rest))
                    ∈ [info [Lit "No MP data available for MDP computation."]] ->
                  color = "🟢").
  { intros Hin. apply list_elem_of_singleton in Hin. discriminate Hin. }
  destruct (df_float df !! "mp") as [column|].
  - destruct (dropna column); intros Hin%Hheader; eauto.
  - destruct metrics_row; intros Hin%Hheader; eauto.
Qed.

(** X10 on a session of two samples. *)
Lemma mdp_summary_marker_is_always_green_witness : "🟢" = "🟢".
Proof.
  apply (mdp_summary_marker_is_always_green (fun _ _ => (None, tt)) whole_part
           (Some Fixtures.two_signals) None "Analyst" "🟢"
           [Num "d" (inject_Z 2); Lit " samples"]).
  apply list_elem_of_In. vm_compute. tauto.
Defined.

(** X11. When the session frame has rows but no [mp] column, the summary
    falls back on the row: the "Peak 5s" tile then shows exactly what the
    "Peak 10s" tile shows, the row's [mdp10] (or "N/A"); no 5 s peak is
    computed. *)
Theorem mdp_summary_fallback_repeats_10s_peak {Aux : Type}
    (compute_mdp : list Q -> nat -> option Q * Aux) (format_mdp_display : Q -> string)
    (df : DataFrame) (row : MetricsRow) (view_mode : string) :
  df_len df ≠ 0%nat ->
  df_float df !! "mp" = None ->
  shown_under "Peak 5s"
    (render_mdp_summary compute_mdp format_mdp_display (Some df) (Some row) view_mode)
  = shown_under "Peak 10s"
      (render_mdp_summary compute_mdp format_mdp_display (Some df) (Some row) view_mode)
  /\ shown_under "Peak 10s"
       (render_mdp_summary compute_mdp format_mdp_display (Some df) (Some row) view_mode)
     = [match get (numbers row) "mdp10" with
        | Some v => [Lit (format_mdp_display v)]
        | None => [Lit "N/A"]
        end].
Proof.
  intros Hlen Hmp. unfold render_mdp_summary. apply Nat.eqb_neq in Hlen. rewrite Hlen, Hmp.
  unfold tile.
  destruct (get (numbers row) "mdp10"), (get (numbers row) "mdp20"),
    (get (numbers row) "mdp30"); split; reflexivity.
Qed.

(** X11 on a session without an [mp] column and the scored sample row. *)
Lemma mdp_summary_fallback_repeats_10s_peak_witness :
  shown_under "Peak 5s"
    (render_mdp_summary (fun _ _ => (None, tt)) whole_part (Some Fixtures.tied_session)
       (Some scored_row) "Analyst")
  = shown_under "Peak 10s"
      (render_mdp_summary (fun _ _ => (None, tt)) whole_part (Some Fixtures.tied_session)
         (Some scored_row) "Analyst")
  /\ shown_under "Peak 10s"
       (render_mdp_summary (fun _ _ => (None, tt)) whole_part (Some Fixtures.tied_session)
          (Some scored_row) "Analyst")
     = [match get (numbers scored_row) "mdp10" with
        | Some v => [Lit (whole_part v)]
        | None => [Lit "N/A"]
        end].
Proof.
  apply (mdp_summary_fallback_repeats_10s_peak (fun _ _ => (None, tt)) whole_part
           Fixtures.tied_session scored_row "Analyst").
  - simpl. lia.
  - reflexivity.
Defined.

End MdpSummary.

(* ====================================================================== *)
(** * Player selector                                                      *)
(* ====================================================================== *)

Section PlayerSelector.
Import PlayersSections.

Lemma py_index_Some (xs : list string) (x : string) (i : nat) :
  py_index xs x = Some i -> xs !! i = Some x /\ forall j, (j < i)%nat -> xs !! j ≠ Some x.
Proof.
  revert i. induction xs as [|y rest IH]; intros i; simpl; [discriminate|].
  destruct (String.eqb y x) eqn:E.
  - intros [= <-]. apply String.eqb_eq in E. subst y. split; [reflexivity | lia].
  - destruct (py_index rest x) as [k|]; [|discriminate]. intros [= <-].
    destruct (IH k eq_refl) as [Hk Hfirst]. split; [exact Hk|].
    intros [|j] Hj; simpl.
    + apply String.eqb_neq in E. congruence.
    + apply Hfirst. lia.
Qed.

Lemma py_index_None (xs : list string) (x : string) : py_index xs x = None -> x ∉ xs.
Proof.
  induction xs as [|y rest IH]; simpl; [intros _ H; inversion H|].
  destruct (String.eqb y x) eqn:E; [discriminate|].
  destruct (py_index rest x); [discriminate|]. intros _ Hin.
  apply String.eqb_neq in E. apply elem_of_cons in Hin as [->|Hin]; [congruence | now apply IH].
Qed.

(** X12. The index handed to the player select box is always a valid
    position of the options list, and the option there is the player the
    session state holds afterwards.  A stored player who is among the
    options is kept; a stored player who is not (a player of another
    session) is replaced by "All Players (Average)" at index 0 instead
    of raising. *)
Theorem player_index_is_valid (others : list string) (viz_player : option string) :
  ("All Players (Average)" :: others) !! (current_player others viz_player).1
  = Some (current_player others viz_player).2
  /\ (forall player, viz_player = Some player ->
        player ∈ "All Players (Average)" :: others ->
        (current_player others viz_player).2 = player)
  /\ (forall player, viz_player = Some player ->
        player ∉ "All Players (Average)" :: others ->
        current_player others viz_player = (0%nat, "All Players (Average)")).
Proof.
  unfold current_player.
  destruct (py_index ("All Players (Average)" :: others)
              (default "All Players (Average)" viz_player)) as [i|] eqn:Hidx.
  - cbn [fst snd]. apply py_index_Some in Hidx as [Hi _]. split; [exact Hi|].
    split; [now intros player -> |].
    intros player -> Hout. exfalso. apply Hout.
    cbn [default from_option id] in Hi. eapply list_elem_of_lookup_2. exact Hi.
  - cbn [fst snd]. apply py_index_None in Hidx. split; [reflexivity|]. split.
    + intros player -> Hin. now elim Hidx.
    + reflexivity.
Qed.

End PlayerSelector.

(* ====================================================================== *)
(** * The page as a whole                                                  *)
(* ====================================================================== *)

Section Page.
Import PlayersSections.

(** X13. Outside Analyst mode the page does not depend on anything the
    analyst sections read: two runs that differ in [compute_mdp], in the
    MDP formatter, in what the chart and the export write and in the
    player's frame write the same page. *)
Theorem coach_mode_hides_analyst_sections {Aux Aux' : Type}
    (format_percentile format_z_score : Q -> string) (ordinal_suffix : Z -> string)
    (generate_coach_insights : MetricsRow -> list string)
    (compute_mdp : list Q -> nat -> option Q * Aux)
    (compute_mdp' : list Q -> nat -> option Q * Aux')
    (format_mdp_display format_mdp_display' : Q -> string)
    (intensity_chart analyst_exports intensity_chart' analyst_exports' : list call)
    (metrics_row : option MetricsRow) (selected_player_display player_view_mode : string)
    (df_player_session df_player_session' : DataFrame) :
  player_view_mode ≠ "Analyst" ->
  render_sections format_percentile format_z_score ordinal_suffix generate_coach_insights
    compute_mdp format_mdp_display intensity_chart analyst_exports
    metrics_row selected_player_display player_view_mode df_player_session
  = render_sections format_percentile format_z_score ordinal_suffix generate_coach_insights
      compute_mdp' format_mdp_display' intensity_chart' analyst_exports'
      metrics_row selected_player_display player_view_mode df_player_session'.
Proof.
  intros Hmode. apply String.eqb_neq in Hmode. unfold render_sections. now rewrite Hmode.
Qed.

(** X13 in Coach mode, on two sessions and two charts. *)
Lemma coach_mode_hides_analyst_sections_witness :
  render_sections whole_part whole_part ordinal_th (fun _ => ["Hard session."])
    (fun _ _ => (None, tt)) whole_part [] []
    (Some scored_row) "Player 7" "Coach" Fixtures.tied_session
  = render_sections whole_part whole_part ordinal_th (fun _ => ["Hard session."])
      (fun _ _ => (Some 1%Q, true)) (fun _ => "?") [info [Lit "chart"]] [info [Lit "export"]]
      (Some scored_row) "Player 7" "Coach" Fixtures.two_signals.
Proof.
  apply (coach_mode_hides_analyst_sections whole_part whole_part ordinal_th
           (fun _ => ["Hard session."]) (fun _ _ => (None, tt))
           (fun _ _ => (Some 1%Q, true)) whole_part (fun _ => "?")
           [] [] [info [Lit "chart"]] [info [Lit "export"]]
           (Some scored_row) "Player 7" "Coach" Fixtures.tied_session Fixtures.two_signals).
  discriminate.
Defined.

Lemma snapshot_with_score_has_no_notice
    (format_percentile format_z_score : Q -> string)
    (row : MetricsRow) (selected_player_display view_mode : string) (score : Q)
    (text : list frag) :
  get (numbers row) "intensity_score" = Some score ->
  info text ∉ render_session_snapshot format_percentile format_z_score (Some row)
               selected_player_display view_mode.
Proof.
  intros Hscore. unfold render_session_snapshot.
  rewrite (row_with_number_is_not_empty row _ _ Hscore), Hscore. cbn [isna orb].
  unfold tile. intros Hin.
  destruct (get (numbers row) "intensity_percentile"), (get (numbers row) "z_intensity"),
    (get (numbers row) "mdp10"), (get (numbers row) "mdp20"), (get (numbers row) "mdp30"),
    (get (numbers row) "total_load"), (get (numbers row) "baseline_28d_intensity");
    cbn [app] in Hin; rewrite ?elem_of_cons, elem_of_nil in Hin;
    repeat (destruct Hin as [Hin|Hin]; [discriminate Hin|]); exact Hin.
Qed.

Lemma team_comparison_of_a_row_has_no_notice (ordinal_suffix : Z -> string)
    (row : MetricsRow) (view_mode : string) (text : list frag) :
  row_empty row = false ->
  info text ∉ (render_team_comparison ordinal_suffix (Some row) view_mode).2.
Proof.
  intros Hrow. unfold render_team_comparison, percentile_tile. rewrite Hrow. intros Hin.
  destruct (get (numbers row) "intensity_percentile"),
    (get (numbers row) "peak10_percentile"), (get (numbers row) "total_load_percentile");
    cbn [snd app] in Hin; rewrite ?elem_of_cons, elem_of_nil in Hin;
    repeat (destruct Hin as [Hin|Hin]; [discriminate Hin|]); exact Hin.
Qed.

Lemma insights_of_a_row_are_bullets (generate_coach_insights : MetricsRow -> list string)
    (row : MetricsRow) (selected_player_display view_mode : string) (text : list frag) :
  row_empty row = false ->
  info text ∈ render_coach_insights generate_coach_insights (Some row)
               selected_player_display view_mode ->
  exists insight, text = [Lit "• "; Lit insight].
Proof.
  intros Hrow. unfold render_coach_insights. rewrite Hrow. intros Hin.
  apply elem_of_app in Hin as [Hin|Hin].
  { rewrite !elem_of_cons, elem_of_nil in Hin. destruct Hin as [H|[H|[]]]; discriminate H. }
  destruct (generate_coach_insights row) as [|first more].
  - apply list_elem_of_singleton in Hin. discriminate Hin.
  - apply list_elem_of_fmap in Hin as (insight & [= ->] & _). now exists insight.
Qed.

Lemma mdp_summary_notice {Aux : Type}
    (compute_mdp : list Q -> nat -> option Q * Aux) (format_mdp_display : Q -> string)
    (player_session_df : option DataFrame) (metrics_row : option MetricsRow)
    (view_mode : string) (text : list frag) :
  info text ∈ render_mdp_summary compute_mdp format_mdp_display player_session_df
               metrics_row view_mode ->
  text = [Lit "No MP data available for MDP computation."].
Proof.
  unfold render_mdp_summary. destruct player_session_df as [df|]; [|inversion 1].
  destruct (df_len df =? 0)%nat; [inversion 1|]. unfold tile.
  assert (Hheader : forall tail,
    info text
      ∈ [plain (markdown [Lit "---"]);
         plain (markdown [Lit "## 🔥 MDP Summary (Analyst Detail)"]);
         plain (caption [Lit "Peaks show highest rolling average metabolic power for each window."])]
        ++ tail ->
    info text ∈ tail).
  { intros tail Hin. apply elem_of_app in Hin as [Hin|Hin]; [|exact Hin].
    rewrite !elem_of_cons, elem_of_nil in Hin. destruct Hin as [H|[H|[H|[]]]]; discriminate H. }
  assert (Htiles : forall (m5 m10 m20 m30 : option Q) last,
    info text
      ∈ map (fun wv : nat * option Q =>
               match wv.2 with
               | Some v => plain (metric [Lit ("Peak " +:+ pretty wv.1 +:+ "s")]
                                         [Lit (format_mdp_display v)])
               | None => plain (metric [Lit ("Peak " +:+ pretty wv.1 +:+ "s")] [Lit "N/A"])
               end)
            [(5, m5); (10, m10); (20, m20); (30, m30)]%nat
        ++ [plain last] ->
    text = [Lit "No MP data available for MDP computation."]).
  { intros m5 m10 m20 m30 last Hin. apply elem_of_app in Hin as [Hin|Hin].
    - apply list_elem_of_fmap in Hin as ([w o] & Heq & _). cbn [fst snd] in Heq.
      destruct o; discriminate Heq.
    - apply list_elem_of_singleton in Hin. discriminate Hin. }
  assert (Hnone : info text ∈ [info [Lit "No MP data available for MDP computation."]] ->
                  text = [Lit "No MP data available for MDP computation."]).
  { intros Hin. apply list_elem_of_singleton in Hin. now injection Hin. }
  destruct (df_float df !! "mp") as [column|].
  - destruct (dropna column); intros Hin%Hheader; eauto.
  - destruct metrics_row; intros Hin%Hheader; eauto.
Qed.

(** X14. The page calls the sections only for a row with an
    [intensity_score], so the notices the snapshot, the team comparison
    and the insights keep for a missing row ("No metrics available for
    selected player-session.", "No team data available.", "Insufficient
    data for insights.") are never written by them on the page: if one
    of these texts is on the page, the chart or the export wrote it. *)
Theorem page_never_shows_section_notices {Aux : Type}
    (format_percentile format_z_score : Q -> string) (ordinal_suffix : Z -> string)
    (generate_coach_insights : MetricsRow -> list string)
    (compute_mdp : list Q -> nat -> option Q * Aux) (format_mdp_display : Q -> string)
    (intensity_chart analyst_exports : list call)
    (metrics_row : option MetricsRow) (selected_player_display player_view_mode : string)
    (df_player_session : DataFrame) (notice : call) :
  notice ∈ section_notices ->
  notice ∈ render_sections format_percentile format_z_score ordinal_suffix
             generate_coach_insights compute_mdp format_mdp_display intensity_chart
             analyst_exports metrics_row selected_player_display player_view_mode
             df_player_session ->
  notice ∈ intensity_chart ++ analyst_exports.
Proof.
  intros Hnotice Hin.
  assert (Hshape : exists text, notice = info text
            /\ text ≠ [Lit "No MP data available for MDP computation."]
            /\ text ≠ [Lit "No session data available for the selected filters. Please check your data or selection."]
            /\ forall insight, text ≠ [Lit "• "; Lit insight]).
  { unfold section_notices in Hnotice. rewrite !elem_of_cons, elem_of_nil in Hnotice.
    destruct Hnotice as [->|[->|[->|[]]]]; eexists; (split; [reflexivity|]);
      repeat split; discriminate. }
  destruct Hshape as (text & -> & Hmp & Hfilters & Hbullet). clear Hnotice.
  unfold render_sections in Hin. apply elem_of_app in Hin as [Hin|Hin]; cycle 1.
  { rewrite !elem_of_cons, elem_of_nil in Hin. destruct Hin as [H|[H|[]]]; discriminate H. }
  assert (Hnodata : info text ∈ [info [Lit "No session data available for the selected filters. Please check your data or selection."]] -> False).
  { intros H. apply list_elem_of_singleton in H. injection H as ->. now apply Hfilters. }
  destruct metrics_row as [row|]; [|now elim Hnodata].
  destruct (get (numbers row) "intensity_score") as [score|] eqn:Hscore;
    cbn [isna negb] in Hin; [|now elim Hnodata].
  pose proof (row_with_number_is_not_empty row _ _ Hscore) as Hrow.
  rewrite !elem_of_app in Hin. destruct Hin as [Hin|[Hin|[Hin|[Hin|Hin]]]].
  - now apply (snapshot_with_score_has_no_notice _ _ _ _ _ score) in Hin.
  - now apply team_comparison_of_a_row_has_no_notice in Hin.
  - apply list_elem_of_fmap in Hin as (e & Heq & _). discriminate Heq.
  - apply insights_of_a_row_are_bullets in Hin as (insight & ->); [|exact Hrow].
    now elim (Hbullet insight).
  - destruct (String.eqb player_view_mode "Analyst"); [|inversion Hin].
    rewrite !elem_of_app in Hin. rewrite elem_of_app.
    destruct Hin as [Hin|[Hin|Hin]]; [now left | | now right].
    apply mdp_summary_notice in Hin. now elim Hmp.
Qed.

(** X14 on an Analyst page whose chart writes one of the three texts. *)
Lemma page_never_shows_section_notices_witness :
  info [Lit "No team data available."] ∈ [info [Lit "No team data available."]] ++ [].
Proof.
  apply (page_never_shows_section_notices whole_part whole_part ordinal_th
           (fun _ => ["Hard session."]) (fun _ _ => (None, tt)) whole_part
           [info [Lit "No team data available."]] []
           (Some scored_row) "Player 7" "Analyst" Fixtures.tied_session
           (info [Lit "No team data available."])).
  - apply list_elem_of_In. vm_compute. tauto.
  - apply list_elem_of_In. vm_compute. tauto.
Defined.

End Page.

(* ====================================================================== *)
(** * Explorer: filters                                                    *)
(* ====================================================================== *)

Section Filters.
Import ExplorerViews.

#[local] Instance index_ge_total : Total index_ge.
Proof.
  intros a b. unfold index_ge, index_geb.
  destruct (session_intensity_index a) as [x|], (session_intensity_index b) as [y|]; auto.
  destruct (Qlt_le_dec x y) as [Hlt|Hle].
  - right. apply Qle_bool_iff. now apply Qlt_le_weak.
  - left. now apply Qle_bool_iff.
Qed.

#[local] Instance index_ge_trans : Transitive index_ge.
Proof.
  intros a b c. unfold index_ge, index_geb.
  destruct (session_intensity_index a) as [x|], (session_intensity_index b) as [y|],
    (session_intensity_index c) as [z|]; try easy.
  rewrite !Qle_bool_iff. intros Hyx Hzy. eapply Qle_trans; eauto.
Qed.

Lemma sorted_pairs {A} (R : relation A) (l : list A) (i j : nat) (x y : A) :
  StronglySorted R l -> (i < j)%nat -> l !! i = Some x -> l !! j = Some y -> R x y.
Proof.
  intros Hsorted. revert i j x y.
  induction Hsorted as [|a l Hs IH Hall]; intros i j x y Hij Hi Hj.
  - discriminate Hi.
  - destruct j as [|j]; [lia|]. simpl in Hj. destruct i as [|i].
    + injection Hi as <-. rewrite Forall_forall in Hall. apply Hall.
      eapply list_elem_of_lookup_2. exact Hj.
    + simpl in Hi. apply (IH i j); [lia | exact Hi | exact Hj].
Qed.

Lemma apply_filters_unfold (df : list SessionMetrics) (selected_players : list string)
    (date_range : option (Z * Z)) (high_intensity_only : bool) :
  apply_filters df selected_players date_range high_intensity_only
  = sort_by_index_desc
      (if high_intensity_only && (0 <? length (selected_sessions df selected_players date_range))%nat
       then List.filter
              (fun r => at_least
                          (quantile_75 (map session_intensity_index
                                          (selected_sessions df selected_players date_range)))
                          (session_intensity_index r))
              (selected_sessions df selected_players date_range)
       else selected_sessions df selected_players date_range).
Proof.
  unfold apply_filters, selected_sessions.
  destruct selected_players, date_range as [[? ?]|]; reflexivity.
Qed.

Lemma elem_of_sorted (df : list SessionMetrics) (r : SessionMetrics) :
  r ∈ sort_by_index_desc df <-> r ∈ df.
Proof. unfold sort_by_index_desc. now rewrite merge_sort_Permutation. Qed.

Lemma elem_of_selected (df : list SessionMetrics) (selected_players : list string)
    (date_range : option (Z * Z)) (r : SessionMetrics) :
  r ∈ selected_sessions df selected_players date_range
  <-> r ∈ df
      /\ (selected_players ≠ [] -> player_id r ∈ selected_players)
      /\ (forall start_date end_date, date_range = Some (start_date, end_date) ->
            (start_date <= date r <= end_date)%Z).
Proof.
  unfold selected_sessions.
  assert (Hplayer : forall players, existsb (String.eqb (player_id r)) players = true
                                    <-> player_id r ∈ players).
  { intros players. rewrite existsb_exists. split.
    - intros (p & Hp & Heq). apply String.eqb_eq in Heq. subst p. now apply list_elem_of_In.
    - intros Hin. exists (player_id r). split; [now apply list_elem_of_In | apply String.eqb_refl]. }
  destruct date_range as [[s e]|], selected_players as [|p players];
    rewrite ?list_elem_of_In, ?filter_In, ?andb_true_iff, ?Z.leb_le, ?Hplayer,
      <- ?list_elem_of_In.
  - split; [intros (Hin & Hs & He) | intros (Hin & _ & Hd)].
    + split; [exact Hin|]. split; [congruence|]. intros ? ? [= <- <-]. lia.
    + specialize (Hd s e eq_refl). tauto.
  - split; [intros ((Hin & Hp) & Hs & He) | intros (Hin & Hp & Hd)].
    + split; [exact Hin|]. split; [auto|]. intros ? ? [= <- <-]. lia.
    + specialize (Hd s e eq_refl). split; [split; [exact Hin | now apply Hp] | lia].
  - split; [intros Hin | tauto]. split; [exact Hin|]. split; [congruence | discriminate].
  - split; [intros (Hin & Hp) | intros (Hin & Hp & _)].
    + split; [exact Hin|]. split; [auto | discriminate].
    + split; [exact Hin | now apply Hp].
Qed.

Lemma elem_of_apply_filters (df : list SessionMetrics) (selected_players : list string)
    (date_range : option (Z * Z)) (high_intensity_only : bool) (r : SessionMetrics) :
  r ∈ apply_filters df selected_players date_range high_intensity_only ->
  r ∈ selected_sessions df selected_players date_range.
Proof.
  rewrite apply_filters_unfold, elem_of_sorted.
  destruct (high_intensity_only && _); [|auto].
  rewrite list_elem_of_In, filter_In, <- list_elem_of_In. tauto.
Qed.

(** X15. Every session [apply_filters] returns is a session of the frame
    it was given; when players were selected it belongs to one of them,
    and when a date range was given its date lies in the range, both
    ends included.  The filters never add or alter a row. *)
Theorem filters_keep_only_matching_sessions (df : list SessionMetrics)
    (selected_players : list string) (date_range : option (Z * Z))
    (high_intensity_only : bool) (r : SessionMetrics) :
  r ∈ apply_filters df selected_players date_range high_intensity_only ->
  r ∈ df
  /\ (selected_players ≠ [] -> player_id r ∈ selected_players)
  /\ (forall start_date end_date, date_range = Some (start_date, end_date) ->
        (start_date <= date r <= end_date)%Z).
Proof. intros Hin. now apply elem_of_apply_filters, elem_of_selected in Hin. Qed.

(** X15 on the sample sessions, players a and c, days 2 to 4. *)
Lemma filters_keep_only_matching_sessions_witness :
  sample_session "c" 3 (Some 2%Q) ∈ sample_sessions
  /\ (["a"; "c"] ≠ [] -> player_id (sample_session "c" 3 (Some 2%Q)) ∈ ["a"; "c"])
  /\ (forall start_date end_date, Some (2%Z, 4%Z) = Some (start_date, end_date) ->
        (start_date <= date (sample_session "c" 3 (Some 2%Q)) <= end_date)%Z).
Proof.
  apply (filters_keep_only_matching_sessions sample_sessions ["a"; "c"] (Some (2%Z, 4%Z))
           false (sample_session "c" 3 (Some 2%Q))).
  apply list_elem_of_In. vm_compute. tauto.
Defined.

(** X16. The frame [apply_filters] returns is ordered by decreasing
    session intensity index: of two rows, the earlier one has an index
    at least as great as the later one, and a row without an index is
    never placed before a row that has one. *)
Theorem filters_sort_by_index_descending (df : list SessionMetrics)
    (selected_players : list string) (date_range : option (Z * Z))
    (high_intensity_only : bool) (i j : nat) (earlier later : SessionMetrics) :
  (i < j)%nat ->
  apply_filters df selected_players date_range high_intensity_only !! i = Some earlier ->
  apply_filters df selected_players date_range high_intensity_only !! j = Some later ->
  match session_intensity_index earlier, session_intensity_index later with
  | Some x, Some y => (y <= x)%Q
  | None, Some _ => False
  | _, None => True
  end.
Proof.
  intros Hij Hi Hj. rewrite apply_filters_unfold in Hi, Hj.
  pose proof (sorted_pairs index_ge _ i j earlier later
                (StronglySorted_merge_sort index_ge _) Hij Hi Hj) as Hge.
  unfold index_ge, index_geb in Hge.
  destruct (session_intensity_index earlier), (session_intensity_index later);
    try easy. now apply Qle_bool_iff.
Qed.

(** X16 on the first two rows of the sorted sample sessions. *)
Lemma filters_sort_by_index_descending_witness :
  match session_intensity_index (sample_session "c" 3 (Some 2%Q)),
        session_intensity_index (sample_session "f" 6 (Some (3 # 2))) with
  | Some x, Some y => (y <= x)%Q
  | None, Some _ => False
  | _, None => True
  end.
Proof.
  apply (filters_sort_by_index_descending sample_sessions [] None false 0 1
           (sample_session "c" 3 (Some 2%Q)) (sample_session "f" 6 (Some (3 # 2)))).
  - lia.
  - vm_compute. reflexivity.
  - vm_compute. reflexivity.
Defined.

(** X17. With no player selected, no date range and the high-intensity
    switch off, [apply_filters] returns every session of the frame
    exactly once: the result is a rearrangement of the frame. *)
Theorem no_filter_keeps_every_session (df : list SessionMetrics) :
  apply_filters df [] None false ≡ₚ df.
Proof. unfold apply_filters, sort_by_index_desc. cbn. apply merge_sort_Permutation. Qed.

End Filters.

(* ====================================================================== *)
(** * Explorer: the high-intensity filter                                  *)
(* ====================================================================== *)

Section TopQuarter.
Import ExplorerViews.

Lemma fraction_in_unit_interval (k : nat) :
  (0 <= Z.of_nat (k mod 4) # 4)%Q /\ (Z.of_nat (k mod 4) # 4 <= 1)%Q.
Proof.
  pose proof (Nat.mod_upper_bound k 4 ltac:(lia)) as Hlt.
  unfold Qle. simpl. lia.
Qed.

Lemma interpolation_below (a b f v : Q) :
  (a <= v)%Q -> (b <= v)%Q -> (0 <= f)%Q -> (f <= 1)%Q -> (a + (b - a) * f <= v)%Q.
Proof.
  intros Ha Hb Hf0 Hf1.
  assert (H1 : (0 <= (v - a) * (1 - f))%Q) by (apply Qmult_le_0_compat; lra).
  assert (H2 : (0 <= (v - b) * f)%Q) by (apply Qmult_le_0_compat; lra).
  assert (Heq : (v - (a + (b - a) * f) == (v - a) * (1 - f) + (v - b) * f)%Q) by ring.
  lra.
Qed.

Lemma nth_or_first {A} (l : list A) (first : A) (k : nat) :
  first ∈ l -> nth k l first ∈ l.
Proof.
  intros Hfirst. destruct (nth_in_or_default k l first) as [Hin| ->];
    [now apply list_elem_of_In | exact Hfirst].
Qed.

Lemma quantile_below_upper_bound (s : list (option Q)) (v t : Q) :
  (forall x, Some x ∈ s -> (x <= v)%Q) -> quantile_75 s = Some t -> (t <= v)%Q.
Proof.
  intros Hbound. unfold quantile_75.
  assert (Hsorted : forall x, x ∈ merge_sort number_le (dropna s) -> (x <= v)%Q).
  { intros x Hx. rewrite merge_sort_Permutation in Hx. apply Hbound. now apply elem_of_dropna. }
  destruct (merge_sort number_le (dropna s)) as [|first rest] eqn:Hs; [discriminate|].
  remember (first :: rest) as sorted eqn:Hsorted_eq.
  assert (Hfirst : first ∈ sorted) by (subst sorted; left).
  clear Hsorted_eq. intros Heq. apply (inj Some) in Heq. rewrite <- Heq.
  destruct (fraction_in_unit_interval (3 * (length sorted - 1))) as [Hf0 Hf1].
  apply interpolation_below; [| |exact Hf0|exact Hf1];
    apply Hsorted, nth_or_first, Hfirst.
Qed.

Lemma quantile_defined (s : list (option Q)) (x : Q) :
  Some x ∈ s -> is_Some (quantile_75 s).
Proof.
  intros Hx. unfold quantile_75.
  destruct (merge_sort number_le (dropna s)) as [|first rest] eqn:Hs; [|eauto].
  apply elem_of_dropna in Hx. rewrite <- (merge_sort_Permutation number_le), Hs in Hx.
  inversion Hx.
Qed.

Lemma elem_of_top_quarter (df : list SessionMetrics) (selected_players : list string)
    (date_range : option (Z * Z)) (r : SessionMetrics) :
  r ∈ apply_filters df selected_players date_range true
  <-> r ∈ apply_filters df selected_players date_range false
      /\ at_least (quantile_75 (map session_intensity_index
                                  (selected_sessions df selected_players date_range)))
                  (session_intensity_index r) = true.
Proof.
  rewrite !apply_filters_unfold, !elem_of_sorted. cbn [andb].
  destruct (0 <? length (selected_sessions df selected_players date_range))%nat eqn:Hlen.
  - now rewrite list_elem_of_In, filter_In, <- list_elem_of_In.
  - apply Nat.ltb_ge in Hlen.
    destruct (selected_sessions df selected_players date_range); [|simpl in Hlen; lia].
    split; [inversion 1 | intros [H _]; inversion H].
Qed.

(** X18. The high-intensity filter never empties a frame that has an
    index: a session whose index is the greatest among the sessions the
    player and date filters keep is still there when the switch is on
    (the 75th percentile it is compared with is never above the
    maximum). *)
Theorem top_quarter_keeps_the_best_session (df : list SessionMetrics)
    (selected_players : list string) (date_range : option (Z * Z))
    (best : SessionMetrics) (v : Q) :
  best ∈ apply_filters df selected_players date_range false ->
  session_intensity_index best = Some v ->
  (forall r v', r ∈ apply_filters df selected_players date_range false ->
     session_intensity_index r = Some v' -> (v' <= v)%Q) ->
  best ∈ apply_filters df selected_players date_range true.
Proof.
  intros Hin Hv Hmax. apply elem_of_top_quarter. split; [exact Hin|].
  set (base := selected_sessions df selected_players date_range).
  assert (Hbase : forall r, r ∈ apply_filters df selected_players date_range false <-> r ∈ base).
  { intros r. rewrite apply_filters_unfold. cbn [andb]. apply elem_of_sorted. }
  assert (Hcell : Some v ∈ map session_intensity_index base).
  { rewrite <- Hv. apply list_elem_of_fmap. exists best. split; [reflexivity | now apply Hbase]. }
  destruct (quantile_defined _ _ Hcell) as [t Ht]. rewrite Ht, Hv. cbn [at_least].
  apply Qle_bool_iff.
  apply (quantile_below_upper_bound (map session_intensity_index base) v t); [|exact Ht].
  intros x Hx. apply list_elem_of_fmap in Hx as (r & Hr & Hrin).
  apply (Hmax r x); [now apply Hbase | now symmetry].
Qed.

(** X18 on the sample sessions, whose greatest index is 2. *)
Lemma top_quarter_keeps_the_best_session_witness :
  sample_session "c" 3 (Some 2%Q) ∈ apply_filters sample_sessions [] None true.
Proof.
  apply (top_quarter_keeps_the_best_session sample_sessions [] None
           (sample_session "c" 3 (Some 2%Q)) 2).
  - apply list_elem_of_In. vm_compute. tauto.
  - reflexivity.
  - intros r v' Hin Hv. apply list_elem_of_In in Hin. vm_compute in Hin.
    repeat (destruct Hin as [<-|Hin]); try contradiction;
      vm_compute in Hv; try discriminate Hv; injection Hv as <-; discriminate.
Defined.

(** X19. What the high-intensity filter keeps is a top slice of the
    filtered frame: the sessions it keeps all have an index, and a
    session whose index is at least that of a kept session is kept as
    well. *)
Theorem top_quarter_is_an_upper_set (df : list SessionMetrics)
    (selected_players : list string) (date_range : option (Z * Z))
    (kept other : SessionMetrics) (v' : Q) :
  kept ∈ apply_filters df selected_players date_range true ->
  other ∈ apply_filters df selected_players date_range false ->
  session_intensity_index other = Some v' ->
  (forall v, session_intensity_index kept = Some v -> (v <= v')%Q) ->
  is_Some (session_intensity_index kept)
  /\ other ∈ apply_filters df selected_players date_range true.
Proof.
  intros Hkept Hother Hv' Hcmp. apply elem_of_top_quarter in Hkept as [Hin Hge].
  destruct (quantile_75 _) as [t|] eqn:Ht; [|discriminate Hge].
  destruct (session_intensity_index kept) as [v|] eqn:Hv; [|discriminate Hge].
  cbn [at_least] in Hge. apply Qle_bool_iff in Hge. split; [now exists v|].
  apply elem_of_top_quarter. split; [exact Hother|].
  rewrite Ht, Hv'. cbn [at_least]. apply Qle_bool_iff.
  eapply Qle_trans; [exact Hge|]. now apply Hcmp.
Qed.

(** X19 on the sample sessions: the session of index 3/2 is kept, so the
    one of index 2 is. *)
Lemma top_quarter_is_an_upper_set_witness :
  is_Some (session_intensity_index (sample_session "f" 6 (Some (3 # 2))))
  /\ sample_session "c" 3 (Some 2%Q) ∈ apply_filters sample_sessions [] None true.
Proof.
  apply (top_quarter_is_an_upper_set sample_sessions [] None
           (sample_session "f" 6 (Some (3 # 2))) (sample_session "c" 3 (Some 2%Q)) 2).
  - apply list_elem_of_In. vm_compute. tauto.
  - apply list_elem_of_In. vm_compute. tauto.
  - reflexivity.
  - intros v [= <-]. discriminate.
Defined.

End TopQuarter.

(* ====================================================================== *)
(** * Explorer: summary and bar data                                       *)
(* ====================================================================== *)

Section Summary.
Import ExplorerViews.

Lemma running_min_spec (rest : list Q) (m : Q) :
  let r := foldl (fun m y => if QMicromega.Qlt_bool y m then y else m) m rest in
  r ∈ m :: rest /\ (r <= m)%Q /\ forall x, x ∈ rest -> (r <= x)%Q.
Proof.
  revert m. induction rest as [|y rest IH]; intros m; cbn [foldl].
  - split; [left|]. split; [lra | intros x Hx; inversion Hx].
  - destruct (QMicromega.Qlt_bool y m) eqn:Hlt.
    + apply QMicromega.Qlt_bool_iff in Hlt. destruct (IH y) as (Hin & Hy & Hrest).
      split; [now right|]. split; [lra|].
      intros x Hx. apply elem_of_cons in Hx as [->|Hx]; [exact Hy | now apply Hrest].
    + apply Qlt_bool_false in Hlt. destruct (IH m) as (Hin & Hm & Hrest).
      split; [apply elem_of_cons in Hin as [->|Hin]; [left | right; now right]|].
      split; [exact Hm|].
      intros x Hx. apply elem_of_cons in Hx as [->|Hx]; [lra | now apply Hrest].
Qed.

Lemma series_min_spec (s : list (option Q)) (lo : Q) :
  series_min s = Some lo -> Some lo ∈ s /\ forall x, Some x ∈ s -> (lo <= x)%Q.
Proof.
  unfold series_min. intros Hmin.
  assert (Hcells : forall x, x ∈ dropna s <-> Some x ∈ s) by (intros x; apply elem_of_dropna).
  destruct (dropna s) as [|first rest]; [discriminate|].
  apply (inj Some) in Hmin. rewrite <- Hmin.
  destruct (running_min_spec rest first) as (Hin & Hfirst & Hrest).
  split; [now apply Hcells|].
  intros x Hx. apply Hcells, elem_of_cons in Hx as [->|Hx]; [exact Hfirst | now apply Hrest].
Qed.

(** X20. The summary of an empty frame and that of a frame with rows
    have different keys: [n_sessions], [avg_intensity], [max_intensity],
    [avg_mdp_10] and [avg_total_load] are always there, [min_intensity]
    is there exactly when the frame has rows. *)
Theorem summary_has_minimum_only_for_sessions (mean : list (option Q) -> float)
    (df : list SessionMetrics) :
  dom (compute_summary_metrics mean df)
  = (if bool_decide (df = []) then ∅ else {["min_intensity"]})
    ∪ {["n_sessions"; "avg_intensity"; "max_intensity"; "avg_mdp_10"; "avg_total_load"]}.
Proof.
  unfold compute_summary_metrics. destruct df as [|row df].
  - cbn [length Nat.eqb]. rewrite bool_decide_eq_true_2 by reflexivity.
    rewrite !dom_insert_L, dom_empty_L. set_solver.
  - cbn [length Nat.eqb]. rewrite bool_decide_eq_false_2 by discriminate.
    rewrite !dom_insert_L, dom_empty_L. set_solver.
Qed.

(** X21. Whenever the summary reports a minimum and a maximum intensity
    that are numbers (not NaN), each is the index of a session of the
    frame, and the index of every session that has one lies between
    them. *)
Theorem summary_extremes_bound_every_session (mean : list (option Q) -> float)
    (df : list SessionMetrics) (lo hi : Q) :
  compute_summary_metrics mean df !! "min_intensity" = Some (Cell (Some lo)) ->
  compute_summary_metrics mean df !! "max_intensity" = Some (Cell (Some hi)) ->
  (exists lowest, lowest ∈ df /\ session_intensity_index lowest = Some lo)
  /\ (exists highest, highest ∈ df /\ session_intensity_index highest = Some hi)
  /\ forall r v, r ∈ df -> session_intensity_index r = Some v -> (lo <= v)%Q /\ (v <= hi)%Q.
Proof.
  unfold compute_summary_metrics. destruct df as [|row df]; [discriminate 1|].
  cbn [length Nat.eqb]. set (column := map session_intensity_index (row :: df)).
  intros Hlo Hhi.
  assert (Hmin : series_min column = Some lo) by (clear -Hlo; now inversion Hlo).
  assert (Hmax : series_max column = Some hi) by (clear -Hhi; now inversion Hhi).
  clear Hlo Hhi. apply series_min_spec in Hmin as [Hlo_in Hlo].
  apply fold_max_Some in Hmax as [Hhi_in Hhi]. apply elem_of_dropna in Hhi_in.
  split; [|split].
  - apply list_elem_of_fmap in Hlo_in as (lowest & Heq & Hin). now exists lowest.
  - apply list_elem_of_fmap in Hhi_in as (highest & Heq & Hin). now exists highest.
  - intros r v Hr Hv.
    assert (Hcell : Some v ∈ column).
    { rewrite <- Hv. apply list_elem_of_fmap. now exists r. }
    split; [now apply Hlo | now apply Hhi, elem_of_dropna].
Qed.

(** X21 on the sample sessions: indices 1/2, 2, -1, 1 and 3/2. *)
Lemma summary_extremes_bound_every_session_witness :
  (exists lowest, lowest ∈ sample_sessions /\ session_intensity_index lowest = Some (-1)%Q)
  /\ (exists highest, highest ∈ sample_sessions /\ session_intensity_index highest = Some 2%Q)
  /\ forall r v, r ∈ sample_sessions -> session_intensity_index r = Some v ->
       (-1 <= v)%Q /\ (v <= 2)%Q.
Proof.
  apply (summary_extremes_bound_every_session (fun _ => 0%float) sample_sessions (-1) 2).
  - reflexivity.
  - reflexivity.
Defined.

Lemma py_take_length (n : nat) (s : string) :
  py_len (py_take n s) = Nat.min n (py_len s).
Proof.
  revert n. induction s as [|c rest IH]; intros n; cbn [py_take py_len]; [lia|].
  destruct (continues c) eqn:Hc.
  - cbn [py_len]. rewrite Hc. apply IH.
  - destruct n as [|n]; [cbn [py_len]; lia|]. cbn [py_len]. rewrite Hc, IH. lia.
Qed.

Lemma py_take_whole (n : nat) (s : string) : (py_len s <= n)%nat -> py_take n s = s.
Proof.
  revert n. induction s as [|c rest IH]; intros n; cbn [py_take py_len]; [reflexivity|].
  destruct (continues c).
  - intros Hlen. now rewrite IH.
  - destruct n as [|n]; [lia|]. intros Hlen. rewrite IH by lia. reflexivity.
Qed.

Lemma py_take_prefix (n : nat) (s : string) : String.prefix (py_take n s) s = true.
Proof.
  revert n. induction s as [|c rest IH]; intros n; cbn [py_take]; [reflexivity|].
  destruct (continues c).
  - cbn [String.prefix]. destruct (Ascii.ascii_dec c c); [apply IH | congruence].
  - destruct n as [|n]; [reflexivity|].
    cbn [String.prefix]. destruct (Ascii.ascii_dec c c); [apply IH | congruence].
Qed.

(** Fifteen characters of an id with a character of two bytes: sixteen
    bytes. *)
Example label_of_accented_session :
  py_take 15 (session_id accented_session) = "sessão_jogador_"
  /\ py_len (py_take 15 (session_id accented_session)) = 15%nat
  /\ String.length (py_take 15 (session_id accented_session)) = 16%nat.
Proof. repeat split. Qed.

Lemma mdp_data_cons (row : SessionMetrics) (df : list SessionMetrics) :
  mdp_data (row :: df)
  = [{| bar_player_id := player_id row; bar_session_id := py_take 15 (session_id row);
        bar_date := date row; bar_window := "10s"; bar_mdp := mdp_10 row |};
     {| bar_player_id := player_id row; bar_session_id := py_take 15 (session_id row);
        bar_date := date row; bar_window := "20s"; bar_mdp := mdp_20 row |};
     {| bar_player_id := player_id row; bar_session_id := py_take 15 (session_id row);
        bar_date := date row; bar_window := "30s"; bar_mdp := mdp_30 row |}]
    ++ mdp_data df.
Proof. reflexivity. Qed.

(** X22. The bar data of [plot_mdp_comparison] holds three bars for
    every session, one per window: the bars of the session in row [i]
    are at positions [3i], [3i + 1] and [3i + 2], for the windows "10s",
    "20s" and "30s" in this order, each with the session's player, date
    and peak for that window, and there are no other bars.  Their label
    is the beginning of the session id: the whole id when it has at most
    15 characters, its first 15 characters otherwise. *)
Theorem mdp_bars_come_in_threes (df : list SessionMetrics) :
  length (mdp_data df) = (3 * length df)%nat
  /\ forall i row, df !! i = Some row ->
       let label := py_take 15 (session_id row) in
       String.prefix label (session_id row) = true
       /\ py_len label = Nat.min 15 (py_len (session_id row))
       /\ ((py_len (session_id row) <= 15)%nat -> label = session_id row)
       /\ mdp_data df !! (3 * i)%nat
          = Some {| bar_player_id := player_id row; bar_session_id := label;
                    bar_date := date row; bar_window := "10s"; bar_mdp := mdp_10 row |}
       /\ mdp_data df !! (3 * i + 1)%nat
          = Some {| bar_player_id := player_id row; bar_session_id := label;
                    bar_date := date row; bar_window := "20s"; bar_mdp := mdp_20 row |}
       /\ mdp_data df !! (3 * i + 2)%nat
          = Some {| bar_player_id := player_id row; bar_session_id := label;
                    bar_date := date row; bar_window := "30s"; bar_mdp := mdp_30 row |}.
Proof.
  split.
  - induction df as [|row df IH]; [reflexivity|].
    rewrite mdp_data_cons, length_app, IH. cbn [length]. lia.
  - intros i row Hrow label.
    split; [apply py_take_prefix|]. split; [apply py_take_length|].
    split; [apply py_take_whole|].
    revert i Hrow. induction df as [|first df IH]; intros i Hrow; [discriminate Hrow|].
    rewrite mdp_data_cons. destruct i as [|i].
    + injection Hrow as ->. repeat split.
    + cbn [lookup list_lookup] in Hrow. specialize (IH i Hrow).
      replace (3 * S i)%nat with (3 + 3 * i)%nat by lia.
      replace (3 + 3 * i + 1)%nat with (3 + (3 * i + 1))%nat by lia.
      replace (3 + 3 * i + 2)%nat with (3 + (3 * i + 2))%nat by lia.
      exact IH.
Qed.

End Summary.
